(** * A shallow embedding of the generic SQLite REST layer

    The program is one Express application: a [DatabaseManager] class that
    owns the single SQLite handle, a connection-checking middleware, eight
    route handlers that turn request parameters into a statement text and a
    parameter list, and an error-handling middleware.

    The SQLite driver, the file system and the clock are outside the
    program.  They are the variables of the section [App]: the handlers are
    functions of the driver's answers, and every statement handed to the
    driver is recorded in the world. *)

From Stdlib Require Import String Ascii List ZArith NArith Bool Lia.
From Stdlib Require Import DecimalString.
Import ListNotations.

Local Open Scope string_scope.
Local Open Scope Z_scope.
Local Set Warnings "-register-all".

(** ** JavaScript values *)

Module Js.

(** The values that travel through the handlers: JSON request bodies, rows
    of the driver, parameters of statements, response bodies.  The numbers
    are the ones the program computes with: the integer-valued binary64
    values ([JNum z] is the Number nearest to [z], and [+0] for 0), [-0],
    the infinities and [NaN]. *)
Inductive Val : Type :=
| JUndefined
| JNull
| JBool (b : bool)
| JNum (z : Z)
| JNaN
| JStr (s : string)
| JArr (xs : list Val)
| JObj (fields : list (string * Val))
| JNegZero
| JInfinity (negative : bool).

(** An object is its own properties in [Object.entries] order. *)
Definition Obj := list (string * Val).

Definition MAX_SAFE_INTEGER : Z := 2 ^ 53 - 1.

(** [!v] *)
Definition falsy (v : Val) : bool :=
  match v with
  | JUndefined | JNull | JNaN => true
  | JBool b => negb b
  | JNum z => z =? 0
  | JStr s => match s with EmptyString => true | _ => false end
  | JArr _ | JObj _ => false
  | JNegZero => true
  | JInfinity _ => false
  end.

(** [o.k], [undefined] when the property is absent. *)
Fixpoint get (k : string) (o : Obj) : Val :=
  match o with
  | [] => JUndefined
  | (k', v) :: o' => if String.eqb k k' then v else get k o'
  end.

Definition has (k : string) (o : Obj) : bool :=
  existsb (fun kv => String.eqb k (fst kv)) o.

(** [v.k] for a value that may not be an object. *)
Definition field (k : string) (v : Val) : Val :=
  match v with
  | JObj o => get k o
  | _ => JUndefined
  end.

(** [Array.prototype.join()] on strings, separator [","]. *)
Fixpoint join (xs : list string) : string :=
  match xs with
  | [] => EmptyString
  | [x] => x
  | x :: rest => x ++ "," ++ join rest
  end.

Definition string_of_Z (z : Z) : string := NilZero.string_of_int (Z.to_int z).

(** ** Numbers

    A JavaScript Number is a binary64 value.  The program only parses
    integers, subtracts one and multiplies, so the values it reaches are
    the integers that binary64 holds, negative zero, the infinities and
    [NaN]. *)
Inductive Number :=
| Finite (z : Z)
| NegZero
| Infinity (negative : bool)
| NaN.

Definition two53 : Z := 9007199254740992.
Definition two1024 : Z := 2 ^ 1024.

(** The binary64 value nearest to a positive integer, ties to the even
    significand; [None] when it is out of range. *)
Definition round_magnitude (a : Z) : option Z :=
  if a <? two53 then Some a
  else
    let e := Z.log2 a - 52 in
    let q := Z.shiftr a e in
    let rest := a - Z.shiftl q e in
    let half := Z.shiftl 1 (e - 1) in
    let q' := if (half <? rest) || ((rest =? half) && Z.odd q) then q + 1 else q in
    let r := Z.shiftl q' e in
    if r <? two1024 then Some r else None.

(** The Number for a mathematical integer. *)
Definition to_number (z : Z) : Number :=
  if z =? 0 then Finite 0
  else match round_magnitude (Z.abs z) with
       | Some r => Finite (Z.sgn z * r)
       | None => Infinity (z <? 0)
       end.

Definition is_negative (n : Number) : bool :=
  match n with
  | Finite z => z <? 0
  | NegZero => true
  | Infinity negative => negative
  | NaN => false
  end.

Definition magnitude (n : Number) : Z :=
  match n with
  | Finite z => z
  | _ => 0
  end.

(** [a - b] *)
Definition sub (a b : Number) : Number :=
  match a, b with
  | NaN, _ | _, NaN => NaN
  | Infinity s, Infinity t => if Bool.eqb s t then NaN else Infinity s
  | Infinity s, _ => Infinity s
  | _, Infinity t => Infinity (negb t)
  | NegZero, Finite 0 => NegZero
  | _, _ => to_number (magnitude a - magnitude b)
  end.

(** [a * b] *)
Definition mul (a b : Number) : Number :=
  match a, b with
  | NaN, _ | _, NaN => NaN
  | Infinity s, Infinity t => Infinity (xorb s t)
  | Infinity s, x | x, Infinity s =>
      if magnitude x =? 0 then NaN else Infinity (xorb s (is_negative x))
  | _, _ =>
      let p := magnitude a * magnitude b in
      if p =? 0
      then if xorb (is_negative a) (is_negative b) then NegZero else Finite 0
      else to_number p
  end.

Definition digit_count (a : Z) : Z := Z.of_nat (String.length (string_of_Z a)).

Fixpoint strip_zeros (fuel : nat) (a : Z) : Z :=
  match fuel with
  | O => a
  | S fuel' =>
      if (a mod 10 =? 0) && negb (a =? 0) then strip_zeros fuel' (a / 10) else a
  end.

(** The decimal with the fewest significant digits that reads back as the
    binary64 integer [a]: for k = 1, 2, ... the two multiples of
    10^(len-k) next to [a] are tried, and of two that read back as [a] the
    nearer one is taken. *)
Fixpoint shortest (a len : Z) (k tries : nat) : Z :=
  match tries with
  | O => a
  | S tries' =>
      let j := len - Z.of_nat k in
      if j <? 0 then a
      else
        let p := 10 ^ j in
        let lo := (a / p) * p in
        let hi := lo + p in
        let ok c := match round_magnitude c with Some r => r =? a | None => false end in
        match ok lo, ok hi with
        | true, true => if a - lo <=? hi - a then lo else hi
        | true, false => lo
        | false, true => hi
        | false, false => shortest a len (S k) tries'
        end
  end.

(** [d.ddde+n] *)
Definition exponent_form (c : Z) : string :=
  let n := digit_count c in
  match string_of_Z (strip_zeros (Z.to_nat n) c) with
  | String d EmptyString => String d EmptyString ++ "e+" ++ string_of_Z (n - 1)
  | String d rest => String d ("." ++ rest) ++ "e+" ++ string_of_Z (n - 1)
  | EmptyString => EmptyString
  end.

(** [Number.prototype.toString] on a positive integer: its digits up to
    2^53, then the shortest decimal that reads back, written out below
    10^21 and in exponent form from there on. *)
Definition magnitude_to_string (a : Z) : string :=
  if a <? two53 then string_of_Z a
  else
    let c := shortest a (digit_count a) 1 17 in
    if digit_count c <=? 21 then string_of_Z c else exponent_form c.

Definition number_to_string (n : Number) : string :=
  match n with
  | NaN => "NaN"
  | Infinity false => "Infinity"
  | Infinity true => "-Infinity"
  | NegZero => "0"
  | Finite z =>
      if z <? 0 then "-" ++ magnitude_to_string (- z) else magnitude_to_string z
  end.

(** [n >= 1] *)
Definition at_least_one (n : Number) : bool :=
  match n with
  | Finite z => 1 <=? z
  | Infinity negative => negb negative
  | NegZero | NaN => false
  end.

(** A Number as a value. *)
Definition num (n : Number) : Val :=
  match n with
  | Finite z => JNum z
  | NegZero => JNegZero
  | Infinity negative => JInfinity negative
  | NaN => JNaN
  end.

(** Whether [String(v)] returns.  The conversion of an object goes
    through its [toString]; a parsed JSON body can hold an object with a
    property of its own under that name, which is no function, and then
    the conversion throws a TypeError.  An array converts when its
    elements do. *)
Fixpoint converts (v : Val) : bool :=
  match v with
  | JObj fs => negb (existsb (fun kv => String.eqb "toString" (fst kv)) fs)
  | JArr xs => forallb converts xs
  | _ => true
  end.

(** [String(v)], the conversion a template literal applies to [${v}], for
    a value that converts. *)
Fixpoint to_string (v : Val) : string :=
  match v with
  | JUndefined => "undefined"
  | JNull => "null"
  | JBool true => "true"
  | JBool false => "false"
  | JNum z => number_to_string (to_number z)
  | JNegZero => "0"
  | JInfinity negative => number_to_string (Infinity negative)
  | JNaN => "NaN"
  | JStr s => s
  | JArr xs =>
      join (map (fun x => match x with
                          | JUndefined | JNull => EmptyString
                          | _ => to_string x
                          end) xs)
  | JObj _ => "[object Object]"
  end.

(** What [JSON.stringify] keeps of a value, as [res.json] sends it: a
    property whose value is [undefined] is dropped, [undefined] inside an
    array, [NaN] and the infinities become [null], and [-0] is written
    [0]. *)
Fixpoint json (v : Val) : Val :=
  match v with
  | JUndefined => JUndefined
  | JNaN => JNull
  | JInfinity _ => JNull
  | JNegZero => JNum 0
  | JArr xs =>
      JArr (map (fun x => match json x with JUndefined => JNull | y => y end) xs)
  | JObj fs =>
      JObj ((fix fields (l : list (string * Val)) : list (string * Val) :=
               match l with
               | [] => []
               | (k, x) :: l' =>
                   match json x with
                   | JUndefined => fields l'
                   | y => (k, y) :: fields l'
                   end
               end) fs)
  | _ => v
  end.

(** A value [JSON.stringify] renders as it is: no [undefined], [NaN],
    infinity or [-0] anywhere in it.  The rows of the driver are such
    values. *)
Fixpoint plain (v : Val) : bool :=
  match v with
  | JUndefined | JNaN | JNegZero | JInfinity _ => false
  | JArr xs => forallb plain xs
  | JObj fs => forallb (fun kv => plain (snd kv)) fs
  | _ => true
  end.

(** ** Strings

    A text is the UTF-8 bytes of the JavaScript string. *)

Fixpoint drop (n : nat) (s : string) : string :=
  match n, s with
  | O, _ => s
  | S n', String _ s' => drop n' s'
  | S _, EmptyString => EmptyString
  end.

(** [s.includes(needle)] *)
Fixpoint includes (needle s : string) : bool :=
  if String.prefix needle s then true
  else match s with
       | EmptyString => false
       | String _ s' => includes needle s'
       end.

(** [s.replace(pat, rep)] for a string pattern: the first occurrence only.
    The replacement used by the program has no [$] pattern. *)
Fixpoint replace (pat rep s : string) : string :=
  if String.prefix pat s then rep ++ drop (String.length pat) s
  else match s with
       | EmptyString => EmptyString
       | String c s' => String c (replace pat rep s')
       end.

(** The number of occurrences of a character in a text. *)
Fixpoint count (c : ascii) (s : string) : nat :=
  match s with
  | EmptyString => O
  | String d s' => if Ascii.eqb c d then S (count c s') else count c s'
  end.

(** ** [parseInt(s, 10)] *)

Definition is_space (c : ascii) : bool :=
  let n := nat_of_ascii c in
  ((9 <=? n) && (n <=? 13))%nat || (n =? 32)%nat.

Definition digit_of (c : ascii) : option Z :=
  let n := nat_of_ascii c in
  if ((48 <=? n) && (n <=? 57))%nat then Some (Z.of_nat n - 48) else None.

(** The white space and line terminators beyond ASCII, by their UTF-8
    bytes: U+00A0; U+1680, U+2000 to U+200A, U+2028, U+2029, U+202F,
    U+205F, U+3000 and U+FEFF. *)
Definition two_byte_space (c d : ascii) : bool :=
  (nat_of_ascii c =? 194)%nat && (nat_of_ascii d =? 160)%nat.

Definition three_byte_space (c d e : ascii) : bool :=
  let '(c, d, e) := (nat_of_ascii c, nat_of_ascii d, nat_of_ascii e) in
  ((c =? 225) && (d =? 154) && (e =? 128)
   || (c =? 226) && (d =? 128)
      && ((128 <=? e) && (e <=? 138) || (e =? 168) || (e =? 169) || (e =? 175))
   || (c =? 226) && (d =? 129) && (e =? 159)
   || (c =? 227) && (d =? 128) && (e =? 128)
   || (c =? 239) && (d =? 187) && (e =? 191))%nat.

Fixpoint skip_spaces (s : string) : string :=
  match s with
  | String c s1 =>
      if is_space c then skip_spaces s1
      else
        match s1 with
        | String d s2 =>
            if two_byte_space c d then skip_spaces s2
            else
              match s2 with
              | String e s3 => if three_byte_space c d e then skip_spaces s3 else s
              | EmptyString => s
              end
        | EmptyString => s
        end
  | EmptyString => EmptyString
  end.

(** The longest prefix of decimal digits, accumulated left to right;
    [None] when there is no digit at all. *)
Fixpoint digits (acc : option Z) (s : string) : option Z :=
  match s with
  | String c s' =>
      match digit_of c with
      | Some d => digits (Some (10 * match acc with Some a => a | None => 0 end + d)) s'
      | None => acc
      end
  | EmptyString => acc
  end.

(** The sign, then the Number nearest to the integer the digits spell;
    [NaN] without a digit, and [-0] for a negated zero. *)
Definition parseInt (s : string) : Number :=
  let s := skip_spaces s in
  let '(negative, s') :=
    match s with
    | String "-" t => (true, t)
    | String "+" t => (false, t)
    | _ => (false, s)
    end in
  match digits None s' with
  | None => NaN
  | Some v =>
      if v =? 0 then (if negative then NegZero else Finite 0)
      else to_number (if negative then - v else v)
  end.

End Js.

Import Js.

(** ** Configuration and constants *)

Record Config := {
  port : Z;
  dbPath : string;
  timeout : Z;          (* milliseconds *)
  nodeEnv : string
}.

(** [process.env.X || fallback]: an unset or empty variable gives the
    fallback. *)
Definition env_or {A} (of_string : string -> A) (v : option string) (fallback : A) : A :=
  match v with
  | Some (String c s) => of_string (String c s)
  | _ => fallback
  end.

(** The [config] object.  A timeout read from the environment is a string
    that [setTimeout] converts to a number; [to_number] is that conversion. *)
Definition make_config (to_number : string -> Z)
    (PORT DB_PATH query_TIMEOUT NODE_ENV : option string) : Config :=
  {| port := env_or to_number PORT 4000;
     dbPath := env_or (fun s => s) DB_PATH "database/database.db";
     timeout := env_or to_number query_TIMEOUT (3 * 60 * 1000);
     nodeEnv := env_or (fun s => s) NODE_ENV "development" |}.

Module HTTP_STATUS.

Definition OK : Z := 200.
Definition BAD_REQUEST : Z := 400.
Definition NOT_FOUND : Z := 404.
Definition TIMEOUT : Z := 408.
Definition INTERNAL_SERVER_ERROR : Z := 500.

End HTTP_STATUS.

(** ** The driver's interface *)

Record Stmt := { sql : string; params : list Val }.

Definition Row := Obj.

(** What [db.all] hands to its callback: [(null, rows)] or [(err)]. *)
Inductive Reply :=
| Rows (rows : list Row)
| Failure (msg : string).

(** The callback of [db.all] runs [after] milliseconds after the call. *)
Record Completion := { after : Z; reply : Reply }.

(** The [sqlite3.Database] object.  The constructor returns it at once and
    reports the outcome of the open to its callback later; [established]
    records that outcome. *)
Record Handle := { established : bool }.

(** A JavaScript [Error]. *)
Record Err := { message : string }.

Inductive Settled (A : Type) :=
| Resolved (a : A)
| Rejected (e : Err).
Arguments Resolved {A} a.
Arguments Rejected {A} e.

Record Response := { status : Z; body : Val }.

(** How a middleware or handler leaves: it sent a response, or it called
    [next(err)]. *)
Inductive Result :=
| Send (r : Response)
| Next (e : Err).

(** [res.status(code).json(payload)] *)
Definition res_json (code : Z) (payload : Val) : Result :=
  Send {| status := code; body := json payload |}.

(** The requests of the data API, by route.  Route parameters are strings;
    a query parameter is a string or absent; a body is the object
    [express.json] parsed, its properties in [Object.entries] order. *)
Inductive Request :=
| ReadTable (table : string)
| ReadById (table id : string)
| Pagination (table : string) (page limit : option string)
| Update (table id : string) (body : Obj)
| Delete (table id : string)
| Create (table : string) (body : Obj)
| AddTable (body : Obj)
| AddColumn (table : string) (body : Obj)
| Unmatched.

(** [setTimeout] replaces a delay below 1 or above 2^31-1 by 1. *)
Definition timer_delay (t : Z) : Z :=
  if (t <? 1) || (2147483647 <? t) then 1 else t.

(** The handlers are arrow functions of the module, so their [this] is the
    module's [this], [module.exports], which the program leaves empty. *)
Definition module_this : Obj := [].

(** The caller-supplied texts a request's statements are built from: the
    table of the route, the property names of an Update or Create body,
    and the body values Create table and Add column splice in. *)
Definition interpolated (r : Request) : list string :=
  match r with
  | ReadTable table => [table]
  | ReadById table _ => [table]
  | Pagination table _ _ => [table]
  | Update table _ body => table :: map fst body
  | Delete table _ => [table]
  | Create table body => table :: map fst body
  | AddTable body => [to_string (get "tableName" body); to_string (get "columns" body)]
  | AddColumn table body =>
      [table; to_string (get "columnName" body); to_string (get "columnType" body)]
  | Unmatched => []
  end.

(** The body values a handler converts to text in a template literal
    before its [try] block.  When one of them does not convert, the
    handler throws there and the request gets no response at all; the
    responses of the model are those of the requests whose spliced values
    convert. *)
Definition spliced (r : Request) : list Val :=
  match r with
  | AddTable body => [get "tableName" body; get "columns" body]
  | AddColumn _ body => [get "columnName" body; get "columnType" body]
  | _ => []
  end.

(** The routes registered behind [checkDatabaseConnection]. *)
Definition needs_database (r : Request) : bool :=
  match r with
  | Unmatched => false
  | _ => true
  end.

(** The events the process listens to, and how it ends on one: the code
    given to [process.exit] and the handles [close] was called on. *)
Inductive ProcessEvent :=
| SIGTERM
| SIGINT
| uncaughtException
| unhandledRejection.

Record Exit := { code : Z; closed : list Handle }.

(** ** The application *)

Module Server.

Section App.

(** The world outside the program: what the database holds, how the driver
    answers a statement on a handle, whether the n-th open of the database
    file fails (and with which message), which of the timer and the
    callback runs first when both are due at the same instant, and the
    stack trace of an error. *)
Variable Store : Type.
Variable config : Config.
Variable db_open : nat -> string -> option string.
Variable db_all : Handle -> Stmt -> Store -> Completion * Store.
Variable timer_first_on_tie : bool.
Variable stack_of : Err -> string.

(** The state a request runs in: [dbManager.db], the database, the number
    of [sqlite3.Database] objects constructed so far and the calls of
    [db.all] so far, oldest first, each with the handle it ran on. *)
Record World := {
  db : option Handle;
  store : Store;
  opened : nat;
  issued : list (Handle * Stmt)
}.

Definition Async (A : Type) := World -> Settled A * World.

(** [DatabaseManager.connect]: [this.db] is assigned before the open is
    known to have succeeded. *)
Definition connect : Async unit := fun w =>
  let err := db_open (opened w) (dbPath config) in
  let h := {| established := match err with None => true | Some _ => false end |} in
  let w' := {| db := Some h; store := store w;
               opened := S (opened w); issued := issued w |} in
  match err with
  | Some m => (Rejected {| message := m |}, w')
  | None => (Resolved tt, w')
  end.

Inductive Race := CallbackFirst | TimerFirst.

Definition race (delay t : Z) : Race :=
  if t <? delay then CallbackFirst
  else if delay <? t then TimerFirst
  else if timer_first_on_tie then TimerFirst else CallbackFirst.

(** The world once [db.all] has been called with a statement. *)
Definition after_call (w : World) (h : Handle) (s : Stmt) (st : Store) : World :=
  {| db := db w; store := st; opened := opened w;
     issued := (issued w ++ [(h, s)])%list |}.

(** [DatabaseManager.query]: the promise settles with whichever of the
    timer and the driver's callback runs first; the statement runs in the
    database either way. *)
Definition query (sql : string) (params : list Val) (timeout : Z) : Async (list Row) :=
  fun w =>
    match db w with
    | None =>
        (Rejected {| message := "Cannot read properties of null (reading 'all')" |}, w)
    | Some h =>
        let stmt := {| sql := sql; params := params |} in
        let '(c, st) := db_all h stmt (store w) in
        let w' := after_call w h stmt st in
        match race (timer_delay timeout) (after c) with
        | TimerFirst => (Rejected {| message := "DATABASE_TIMEOUT" |}, w')
        | CallbackFirst =>
            match reply c with
            | Failure m => (Rejected {| message := m |}, w')
            | Rows rows => (Resolved rows, w')
            end
        end
    end.

Definition errorHandler (err : Err) : Response :=
  let errorResponse : Obj :=
    [("status", JStr "error"); ("message", JStr "Erro interno do servidor")] in
  let errorResponse :=
    if String.eqb (nodeEnv config) "development"
    then (errorResponse ++ [("detail", JStr (message err)); ("stack", JStr (stack_of err))])%list
    else errorResponse in
  if String.eqb (message err) "DATABASE_TIMEOUT"
  then {| status := HTTP_STATUS.TIMEOUT;
          body := json (JObj [("status", JStr "error");
                              ("message", JStr "A consulta excedeu o tempo limite de 3 minutos")]) |}
  else {| status := HTTP_STATUS.INTERNAL_SERVER_ERROR; body := json (JObj errorResponse) |}.

Definition checkDatabaseConnection (w : World) : option Err * World :=
  match db w with
  | None =>
      match connect w with
      | (Resolved _, w') => (None, w')
      | (Rejected _, w') =>
          (Some {| message := "Falha na conexão com o banco de dados" |}, w')
      end
  | Some _ => (None, w)
  end.

(** The [catch] block that six handlers share. *)
Definition next_localized (error : Err) : Result :=
  if includes "no such table" (message error)
  then Next {| message := replace "no such table:" "Não existe a tabela:" (message error) |}
  else Next {| message := message error |}.

Definition Handler := World -> Result * World.

(** [try { rows = await dbManager.query(...); ok(rows) } catch (error) { failed(error) }] *)
Definition try_query (sql : string) (params : list Val)
    (ok : list Row -> Handler) (failed : Err -> Result) : Handler :=
  fun w => match query sql params (timeout config) w with
           | (Resolved rows, w') => ok rows w'
           | (Rejected e, w') => (failed e, w')
           end.

Definition done (r : Result) : Handler := fun w => (r, w).

Definition rows_val (rows : list Row) : Val := JArr (map JObj rows).

(** GET /api/read/:table *)
Definition read_table (table : string) : Handler :=
  let sql := "SELECT * FROM " ++ table ++ " LIMIT 10" in
  try_query sql []
    (fun resultado =>
       done (res_json HTTP_STATUS.OK
               (JObj [("status", JStr "success"); ("data", rows_val resultado)])))
    next_localized.

(** GET /api/read/:table/:id *)
Definition read_by_id (table id : string) : Handler :=
  if falsy (JStr table) && falsy (JStr id)
  then done (res_json HTTP_STATUS.BAD_REQUEST
               (JObj [("message", JStr "Bad request. Missing ID parameter")]))
  else
    let sql := "SELECT * FROM " ++ table ++ " WHERE id = ?" in
    let params := [JStr id] in
    try_query sql params
      (fun row =>
         match row with
         | [] => done (res_json HTTP_STATUS.NOT_FOUND
                         (JObj [("message", JStr "User not found")]))
         | row0 :: _ => done (res_json HTTP_STATUS.OK (JObj row0))
         end)
      next_localized.

Definition query_param (p : option string) : Val :=
  match p with Some s => JStr s | None => JUndefined end.

(** GET /api/pagination/:table *)
Definition pagination (table : string) (page limit : option string) : Handler :=
  if falsy (query_param page) || falsy (query_param limit)
  then done (res_json HTTP_STATUS.BAD_REQUEST
               (JObj [("message", JStr "Bad request. Missing page or limit parameter")]))
  else
    let pageNumber := parseInt (to_string (query_param page)) in
    let limitNumber := parseInt (to_string (query_param limit)) in
    let offset := mul (sub pageNumber (Finite 1)) limitNumber in
    let sql := "SELECT * FROM " ++ table ++ " LIMIT ? OFFSET ?" in
    let params := [num limitNumber; num offset] in
    try_query sql params
      (fun rows =>
         match rows with
         | _ :: _ => done (res_json HTTP_STATUS.OK (rows_val rows))
         | [] => done (res_json HTTP_STATUS.OK
                         (JObj [("message", JStr ("A tabela '" ++ table ++ "' está vazia."))]))
         end)
      next_localized.

(** PATCH /api/update/:table/:id *)
Definition update (table id : string) (body : Obj) : Handler :=
  let '(keys, values) :=
    if (0 <? length body)%nat
    then (map (fun kv => fst kv ++ " = ?") body, map snd body)
    else ([], []) in
  let sql := "UPDATE " ++ table ++ " SET " ++ join keys ++ " WHERE id = ?" in
  let params := (values ++ [JStr id])%list in
  try_query sql params
    (fun _ =>
       done (res_json HTTP_STATUS.OK
               (JObj [("message", JStr "Cadastro atualizado com sucesso!");
                      ("changes", get "changes" module_this)])))
    next_localized.

(** DELETE /api/delete/:table/:id *)
Definition delete (table id : string) : Handler :=
  let checkSql := "SELECT * FROM " ++ table ++ " WHERE id = ?" in
  let deleteSql := "DELETE FROM " ++ table ++ " WHERE id = ?" in
  let checkParams := [JStr id] in
  try_query checkSql checkParams
    (fun result =>
       match result with
       | [] =>
           done (res_json HTTP_STATUS.NOT_FOUND
                   (JObj [("message",
                           JStr ("O id '" ++ id ++ "' não encontrado na tabela '" ++ table ++ "'."))]))
       | _ :: _ =>
           try_query deleteSql checkParams
             (fun _ =>
                done (res_json HTTP_STATUS.OK
                        (JObj [("message", JStr ("ID '" ++ id ++ "' excluído com sucesso!"))])))
             next_localized
       end)
    next_localized.

(** POST /api/create/:table *)
Definition create (table : string) (body : Obj) : Handler :=
  let '(keys, values, i) :=
    if (0 <? length body)%nat
    then (map fst body, map snd body, map (fun _ => "?") body)
    else ([], [], []) in
  let sql := "INSERT INTO " ++ table ++ " (" ++ join keys ++ ") VALUES (" ++ join i ++ ")" in
  let params := values in
  try_query sql params
    (fun _ =>
       done (res_json HTTP_STATUS.OK
               (JObj [("message", JStr "Cadastro criado com sucesso!");
                      ("id", get "lastID" module_this)])))
    (fun error =>
       if includes "UNIQUE constraint failed" (message error)
       then Next {| message := "O email já existe" |}
       else Next {| message := message error |}).

(** POST /api/add-table *)
Definition add_table (body : Obj) : Handler :=
  let tableName := get "tableName" body in
  let columns := get "columns" body in
  if falsy tableName || falsy columns
  then done (res_json HTTP_STATUS.BAD_REQUEST
               (JObj [("error", JStr "Nome da tabela e colunas são obrigatórios.")]))
  else
    let createTableSQL :=
      "CREATE TABLE IF NOT EXISTS " ++ to_string tableName ++ " (" ++ to_string columns ++ ");" in
    try_query createTableSQL []
      (fun _ =>
         done (res_json HTTP_STATUS.OK
                 (JObj [("message", JStr ("Tabela '" ++ to_string tableName ++ "' criada com sucesso!"))])))
      (fun error => Next {| message := "Erro ao criar a tabela: " ++ message error |}).

(** POST /api/add-column/:table *)
Definition add_column (table : string) (body : Obj) : Handler :=
  let columnName := get "columnName" body in
  let columnType := get "columnType" body in
  let sql := "ALTER TABLE " ++ table ++ " ADD COLUMN " ++ to_string columnName
             ++ " " ++ to_string columnType ++ ";" in
  try_query sql []
    (fun _ =>
       done (res_json HTTP_STATUS.OK
               (JObj [("message", JStr ("Coluna '" ++ to_string columnName ++ "' criada com sucesso!"))])))
    next_localized.

(** The fallback route, [app.use('*', ...)]. *)
Definition not_found : Response :=
  {| status := HTTP_STATUS.NOT_FOUND;
     body := json (JObj [("status", JStr "error"); ("message", JStr "Endpoint não encontrado")]) |}.

(** The handler a route is registered with; the fallback has none. *)
Definition handler (r : Request) : option Handler :=
  match r with
  | ReadTable table => Some (read_table table)
  | ReadById table id => Some (read_by_id table id)
  | Pagination table page limit => Some (pagination table page limit)
  | Update table id body => Some (update table id body)
  | Delete table id => Some (delete table id)
  | Create table body => Some (create table body)
  | AddTable body => Some (add_table body)
  | AddColumn table body => Some (add_column table body)
  | Unmatched => None
  end.

(** One request through the stack: the connection check, the handler, and
    the error handler for whatever was passed to [next]. *)
Definition serve (r : Request) (w : World) : Response * World :=
  match handler r with
  | None => (not_found, w)
  | Some h =>
      match checkDatabaseConnection w with
      | (Some e, w1) => (errorHandler e, w1)
      | (None, w1) =>
          match h w1 with
          | (Send resp, w2) => (resp, w2)
          | (Next e, w2) => (errorHandler e, w2)
          end
      end
  end.

(** Requests served one after the other. *)
Fixpoint run (rs : list Request) (w : World) : list Response * World :=
  match rs with
  | [] => ([], w)
  | r :: rs' =>
      let '(resp, w1) := serve r w in
      let '(resps, w2) := run rs' w1 in
      (resp :: resps, w2)
  end.

(** The world at process start: [this.db = null]. *)
Definition boot (st : Store) : World :=
  {| db := None; store := st; opened := O; issued := [] |}.

(** ** Predicates the properties are stated with *)

(** What a handler sends by itself: 200, 400 or 404 and an object, except
    that a non-empty page is the bare array of its rows. *)
Definition sent_shape (r : Request) (resp : Response) : Prop :=
  (status resp = 200 \/ status resp = 400 \/ status resp = 404)
  /\ ((exists o, body resp = JObj o)
      \/ (exists table page limit row rows,
            r = Pagination table page limit /\ status resp = 200
            /\ body resp = json (rows_val (row :: rows))))
  /\ (forall table, r = ReadTable table ->
        field "status" (body resp) = JStr "success"
        /\ exists rows, field "data" (body resp) = json (rows_val rows)).

(** The responses of the data API, case by case, with their bodies as
    they are sent. *)
Inductive Envelope (r : Request) (resp : Response) : Prop :=
| ListRows (table : string) (rows : list Row) :
    r = ReadTable table ->
    resp = {| status := 200;
              body := JObj [("status", JStr "success");
                            ("data", JArr (map (fun row => json (JObj row)) rows))] |} ->
    Envelope r resp
| BareRow (table id : string) (row : Row) :
    r = ReadById table id ->
    resp = {| status := 200; body := json (JObj row) |} ->
    Envelope r resp
| BarePage (table : string) (page limit : option string) (row : Row) (rows : list Row) :
    r = Pagination table page limit ->
    resp = {| status := 200;
              body := JArr (map (fun row => json (JObj row)) (row :: rows)) |} ->
    Envelope r resp
| Acknowledgment (m : string) :
    r <> Unmatched ->
    (forall table, r <> ReadTable table) ->
    resp = {| status := 200; body := JObj [("message", JStr m)] |} ->
    Envelope r resp
| Refusal (code : Z) (m : string) :
    r <> Unmatched ->
    code = 400 \/ code = 404 ->
    resp = {| status := code; body := JObj [("message", JStr m)] |} ->
    Envelope r resp
| TableRefusal (fields : Obj) (m : string) :
    r = AddTable fields ->
    resp = {| status := 400; body := JObj [("error", JStr m)] |} ->
    Envelope r resp
| Fallback :
    r = Unmatched ->
    resp = {| status := 404;
              body := JObj [("status", JStr "error");
                            ("message", JStr "Endpoint não encontrado")] |} ->
    Envelope r resp
| TimedOut :
    r <> Unmatched ->
    resp = {| status := 408;
              body := JObj [("status", JStr "error");
                            ("message",
                             JStr "A consulta excedeu o tempo limite de 3 minutos")] |} ->
    Envelope r resp
| Failed :
    r <> Unmatched ->
    nodeEnv config <> "development" ->
    resp = {| status := 500;
              body := JObj [("status", JStr "error");
                            ("message", JStr "Erro interno do servidor")] |} ->
    Envelope r resp
| FailedInDevelopment (detail stack : string) :
    r <> Unmatched ->
    nodeEnv config = "development" ->
    resp = {| status := 500;
              body := JObj [("status", JStr "error");
                            ("message", JStr "Erro interno do servidor");
                            ("detail", JStr detail); ("stack", JStr stack)] |} ->
    Envelope r resp.

(** The invariant of the world: before the first request that needs the
    database there is no handle and nothing was issued; afterwards there is
    exactly one handle, the one the first open returned, established or
    not, and every statement ran on it. *)
Definition one_handle (w : World) : Prop :=
  match db w with
  | None => opened w = O /\ issued w = []
  | Some h =>
      opened w = 1%nat
      /\ established h = match db_open O (dbPath config) with None => true | Some _ => false end
      /\ Forall (fun e => fst e = h) (issued w)
  end.

(** ** The end of the process *)

(** [DatabaseManager.close]: the handle in [this.db], if there is one, is
    closed. *)
Definition close (w : World) : list Handle :=
  match db w with
  | Some h => [h]
  | None => []
  end.

(** The four [process.on] listeners: [dbManager.close()], then
    [process.exit] with 0 for a signal and 1 for an uncaught failure. *)
Definition on_event (ev : ProcessEvent) (w : World) : Exit :=
  match ev with
  | SIGTERM | SIGINT => {| code := 0; closed := close w |}
  | uncaughtException | unhandledRejection => {| code := 1; closed := close w |}
  end.

End App.

Arguments db {Store} w.
Arguments store {Store} w.
Arguments opened {Store} w.
Arguments issued {Store} w.

End Server.

Import Server.

(** ** A small database to run the application on

    A stand-in for SQLite that answers the statement shapes the handlers
    produce, over tables kept as lists of rows in storage order.  It is used
    to run the handlers on concrete requests; the general theorems hold for
    every driver. *)

Module Sim.

Definition Store := list (string * list Row).

Fixpoint strip_prefix (p s : string) : option string :=
  match p, s with
  | EmptyString, _ => Some s
  | String a p', String b s' => if Ascii.eqb a b then strip_prefix p' s' else None
  | String _ _, EmptyString => None
  end.

(** The text up to the first [stop] character, and the rest from it on. *)
Fixpoint until (stop : ascii) (s : string) : string * string :=
  match s with
  | EmptyString => (EmptyString, EmptyString)
  | String c s' =>
      if Ascii.eqb c stop then (EmptyString, s)
      else let '(w, rest) := until stop s' in (String c w, rest)
  end.

Fixpoint split_commas (fuel : nat) (s : string) : list string :=
  match fuel with
  | O => [s]
  | S fuel' =>
      match until "," s with
      | (w, String _ rest) => w :: split_commas fuel' rest
      | (w, EmptyString) => [w]
      end
  end.

Fixpoint table_rows (t : string) (st : Store) : option (list Row) :=
  match st with
  | [] => None
  | (t', rows) :: st' => if String.eqb t t' then Some rows else table_rows t st'
  end.

Fixpoint set_rows (t : string) (rows : list Row) (st : Store) : Store :=
  match st with
  | [] => []
  | (t', old) :: st' =>
      if String.eqb t t' then (t', rows) :: st' else (t', old) :: set_rows t rows st'
  end.

Definition id_is (v : Val) (r : Row) : bool :=
  String.eqb (to_string (get "id" r)) (to_string v).

Definition failure (latency : Z) (m : string) (st : Store) : Completion * Store :=
  ({| after := latency; reply := Failure m |}, st).

Definition answer (latency : Z) (rows : list Row) (st : Store) : Completion * Store :=
  ({| after := latency; reply := Rows rows |}, st).

Definition select (latency : Z) (t tail : string) (ps : list Val) (rows : list Row)
    (st : Store) : Completion * Store :=
  if String.eqb tail " LIMIT 10" then answer latency (firstn 10 rows) st
  else if String.eqb tail " WHERE id = ?" then
    match ps with
    | [v] => answer latency (filter (id_is v) rows) st
    | _ => failure latency "SQLITE_RANGE: column index out of range" st
    end
  else if String.eqb tail " LIMIT ? OFFSET ?" then
    match ps with
    | [JNum l; JNum o] =>
        answer latency (firstn (Z.to_nat l) (skipn (Z.to_nat o) rows)) st
    | _ => failure latency "SQLITE_MISMATCH: datatype mismatch" st
    end
  else failure latency "SQLITE_ERROR: syntax error" st.

Definition insert (latency : Z) (t tail : string) (ps : list Val) (rows : list Row)
    (st : Store) : Completion * Store :=
  match strip_prefix " (" tail with
  | Some rest =>
      let '(cols, _) := until ")" rest in
      match cols with
      | EmptyString => failure latency "SQLITE_ERROR: near ): syntax error" st
      | _ =>
          let row := combine (split_commas (String.length cols) cols) ps in
          let row := if has "id" row then row
                     else ("id", JNum (Z.of_nat (S (length rows)))) :: row in
          answer latency [] (set_rows t (rows ++ [row])%list st)
      end
  | None => failure latency "SQLITE_ERROR: syntax error" st
  end.

(** The statement's verb decides how the rest is read; a table that is not
    in the store is SQLite's "no such table".  An UPDATE that parses is
    acknowledged without being applied. *)
Definition on_table (latency : Z) (rest : string) (st : Store)
    (k : string -> string -> list Row -> Completion * Store) : Completion * Store :=
  let '(t, tail) := until " " rest in
  match table_rows t st with
  | None => failure latency ("SQLITE_ERROR: no such table: " ++ t) st
  | Some rows => k t tail rows
  end.

Definition db_all (latency : Z) (h : Handle) (s : Stmt) (st : Store) : Completion * Store :=
  if negb (established h)
  then failure latency "SQLITE_MISUSE: Database handle is closed" st
  else
    match strip_prefix "SELECT * FROM " (sql s) with
    | Some rest => on_table latency rest st (fun t tail rows => select latency t tail (params s) rows st)
    | None =>
    match strip_prefix "DELETE FROM " (sql s) with
    | Some rest =>
        on_table latency rest st (fun t tail rows =>
          match params s with
          | [v] => answer latency [] (set_rows t (filter (fun r => negb (id_is v r)) rows) st)
          | _ => failure latency "SQLITE_RANGE: column index out of range" st
          end)
    | None =>
    match strip_prefix "INSERT INTO " (sql s) with
    | Some rest => on_table latency rest st (fun t tail rows => insert latency t tail (params s) rows st)
    | None =>
    match strip_prefix "UPDATE " (sql s) with
    | Some rest =>
        on_table latency rest st (fun t tail rows =>
          match strip_prefix " SET  WHERE" tail with
          | Some _ => failure latency "SQLITE_ERROR: near WHERE: syntax error" st
          | None => answer latency [] st
          end)
    | None =>
    match strip_prefix "CREATE TABLE IF NOT EXISTS " (sql s) with
    | Some rest =>
        let '(t, _) := until " " rest in
        match table_rows t st with
        | Some _ => answer latency [] st
        | None => answer latency [] (st ++ [(t, [])])%list
        end
    | None => failure latency "SQLITE_ERROR: syntax error" st
    end end end end end.

End Sim.

(** A concrete installation: the default configuration, a database with
    one table [users] of 25 rows, and a driver that answers after
    [latency] milliseconds. *)

Module Demo.

Definition config : Config := make_config (fun _ => 0) None None None None.

Definition user (n : nat) : Row :=
  [("id", JNum (Z.of_nat n)); ("first", JStr ("user" ++ string_of_Z (Z.of_nat n)))].

Definition users25 : Sim.Store := [("users", map user (seq 1 25))].

Definition stack_of (e : Err) : string := "Error: " ++ message e.

Definition opens_fine (n : nat) (path : string) : option string := None.

Definition cannot_open (n : nat) (path : string) : option string :=
  Some "SQLITE_CANTOPEN: unable to open database file".

Definition serve (latency : Z) (db_open : nat -> string -> option string) :=
  serve Sim.Store config db_open (Sim.db_all latency) true stack_of.

Definition run (latency : Z) (db_open : nat -> string -> option string) :=
  run Sim.Store config db_open (Sim.db_all latency) true stack_of.

Definition boot : World Sim.Store := boot Sim.Store users25.

(** A table without a key on [id]: two rows share the id 7. *)
Definition pets : Sim.Store :=
  [("pets", [[("id", JNum 7); ("name", JStr "Rex")];
             [("id", JNum 7); ("name", JStr "Tom")];
             [("id", JNum 8); ("name", JStr "Ava")]])].

Definition boot_pets : World Sim.Store := Server.boot Sim.Store pets.

(** The world once the first request has opened the database. *)
Definition connected (st : Sim.Store) : World Sim.Store :=
  {| db := Some {| established := true |}; store := st; opened := 1; issued := [] |}.

Definition live : Handle := {| established := true |}.

(** The same installation with [NODE_ENV=production]. *)
Definition production : Config :=
  make_config (fun _ => 0) None None None (Some "production").

(** A driver that answers every statement after [latency] milliseconds
    with no rows, and one that rejects every statement with [m]. *)
Definition stalled (latency : Z) (h : Handle) (s : Stmt) (st : Sim.Store)
    : Completion * Sim.Store :=
  ({| after := latency; reply := Rows [] |}, st).

Definition rejecting (m : string) (h : Handle) (s : Stmt) (st : Sim.Store)
    : Completion * Sim.Store :=
  ({| after := 5; reply := Failure m |}, st).

End Demo.

(** ** Properties *)

Fixpoint json_plain (v : Val) : plain v = true -> json v = v.
Proof.
  destruct v as [| |b|z| |s|xs|fs| |negative]; cbn [plain json]; intros H;
    try reflexivity; try discriminate.
  - f_equal. induction xs as [|x xs IH]; [reflexivity|].
    cbn [forallb] in H. apply andb_prop in H as [Hx Hxs].
    cbn [map]. rewrite (json_plain x Hx), (IH Hxs).
    destruct x; try reflexivity; discriminate.
  - f_equal. induction fs as [|[k x] fs IH]; [reflexivity|].
    cbn [forallb snd] in H. apply andb_prop in H as [Hx Hfs].
    rewrite (json_plain x Hx), (IH Hfs).
    destruct x; try reflexivity; discriminate.
Qed.

Section Properties.

Variable Store : Type.
Variable config : Config.
Variable db_open : nat -> string -> option string.
Variable db_all : Handle -> Stmt -> Store -> Completion * Store.
Variable timer_first_on_tie : bool.
Variable stack_of : Err -> string.

Local Abbreviation World := (Server.World Store).
Local Abbreviation race := (Server.race timer_first_on_tie).
Local Abbreviation after_call := (Server.after_call Store).
Local Abbreviation query := (Server.query Store db_all timer_first_on_tie).
Local Abbreviation try_query := (Server.try_query Store config db_all timer_first_on_tie).
Local Abbreviation connect := (Server.connect Store config db_open).
Local Abbreviation checkDatabaseConnection := (Server.checkDatabaseConnection Store config db_open).
Local Abbreviation errorHandler := (Server.errorHandler config stack_of).
Local Abbreviation handler := (Server.handler Store config db_all timer_first_on_tie).
Local Abbreviation serve := (Server.serve Store config db_open db_all timer_first_on_tie stack_of).
Local Abbreviation run := (Server.run Store config db_open db_all timer_first_on_tie stack_of).
Local Abbreviation one_handle := (Server.one_handle Store config db_open).
Local Abbreviation Envelope := (Server.Envelope config).

(** The deadline of a statement, as the timer sees it. *)
Local Abbreviation deadline := (timer_delay (timeout config)).

Local Arguments String.append : simpl never.

(** *** The race between the timer and the driver *)

Lemma race_callback (delay t : Z) : t < delay -> race delay t = CallbackFirst.
Proof.
  intros H. unfold Server.race.
  apply Z.ltb_lt in H. now rewrite H.
Qed.

Lemma race_timer (delay t : Z) : delay < t -> race delay t = TimerFirst.
Proof.
  intros H. unfold Server.race.
  assert (Hge : (t <? delay) = false) by (apply Z.ltb_ge; lia).
  apply Z.ltb_lt in H. now rewrite Hge, H.
Qed.

(** What [query] does on a live handle, in its three outcomes. *)
Lemma query_rows (sql : string) (ps : list Val) (ms : Z) (w : World)
    (h : Handle) (c : Completion) (st : Store) (rows : list Row) :
  db w = Some h ->
  db_all h {| sql := sql; params := ps |} (store w) = (c, st) ->
  after c < timer_delay ms ->
  reply c = Rows rows ->
  query sql ps ms w = (Resolved rows, after_call w h {| sql := sql; params := ps |} st).
Proof.
  intros Hdb Hall Hlt Hrep. unfold Server.query.
  rewrite Hdb, Hall, (race_callback _ _ Hlt), Hrep. reflexivity.
Qed.

Lemma query_failure (sql : string) (ps : list Val) (ms : Z) (w : World)
    (h : Handle) (c : Completion) (st : Store) (m : string) :
  db w = Some h ->
  db_all h {| sql := sql; params := ps |} (store w) = (c, st) ->
  after c < timer_delay ms ->
  reply c = Failure m ->
  query sql ps ms w
  = (Rejected {| message := m |}, after_call w h {| sql := sql; params := ps |} st).
Proof.
  intros Hdb Hall Hlt Hrep. unfold Server.query.
  rewrite Hdb, Hall, (race_callback _ _ Hlt), Hrep. reflexivity.
Qed.

Lemma query_timeout (sql : string) (ps : list Val) (ms : Z) (w : World)
    (h : Handle) (c : Completion) (st : Store) :
  db w = Some h ->
  db_all h {| sql := sql; params := ps |} (store w) = (c, st) ->
  timer_delay ms < after c ->
  query sql ps ms w
  = (Rejected {| message := "DATABASE_TIMEOUT" |},
     after_call w h {| sql := sql; params := ps |} st).
Proof.
  intros Hdb Hall Hlt. unfold Server.query.
  rewrite Hdb, Hall, (race_timer _ _ Hlt). reflexivity.
Qed.

(** Whatever happens, a query on a live handle hands exactly its own
    statement to the driver. *)
Lemma query_issues (sql : string) (ps : list Val) (ms : Z) (w : World) (h : Handle) :
  db w = Some h ->
  let w' := snd (query sql ps ms w) in
  db w' = db w /\ opened w' = opened w
  /\ issued w' = (issued w ++ [(h, {| sql := sql; params := ps |})])%list
  /\ store w' = snd (db_all h {| sql := sql; params := ps |} (store w)).
Proof.
  intros Hdb. unfold Server.query. rewrite Hdb.
  destruct (db_all h _ (store w)) as [c st]. cbn.
  destruct (race _ _); [destruct (reply c)|]; cbn; auto.
Qed.

(** *** The connection check *)

Lemma check_when_connected (w : World) (h : Handle) :
  db w = Some h -> checkDatabaseConnection w = (None, w).
Proof.
  intros Hdb. unfold Server.checkDatabaseConnection. now rewrite Hdb.
Qed.

Lemma check_passed (w w1 : World) :
  checkDatabaseConnection w = (None, w1) ->
  (exists h, db w1 = Some h) /\ issued w1 = issued w /\ store w1 = store w.
Proof.
  unfold Server.checkDatabaseConnection, Server.connect.
  destruct (db w) as [h|] eqn:Hdb.
  - intros [= <-]. eauto.
  - destruct (db_open _ _); intros [= <-]. cbn. eauto.
Qed.

Lemma try_query_eq (sql : string) (ps : list Val)
    (ok : list Row -> Handler Store) (failed : Err -> Result) (w : World) :
  try_query sql ps ok failed w
  = match query sql ps (timeout config) w with
    | (Resolved rows, w') => ok rows w'
    | (Rejected e, w') => (failed e, w')
    end.
Proof. reflexivity. Qed.

(** A handler that answers from one query leaves the world as the query
    left it. *)
Lemma try_query_world (sql : string) (ps : list Val)
    (ok : list Row -> Result) (failed : Err -> Result) (w : World) :
  snd (try_query sql ps (fun rows => done Store (ok rows)) failed w)
  = snd (query sql ps (timeout config) w).
Proof.
  unfold Server.try_query.
  destruct (query sql ps (timeout config) w) as [[rows|e] w']; reflexivity.
Qed.

Lemma serve_passed (r : Request) (hd : Handler Store) (w w1 : World) :
  handler r = Some hd ->
  checkDatabaseConnection w = (None, w1) ->
  serve r w = (match fst (hd w1) with
               | Send resp => resp
               | Next e => errorHandler e
               end, snd (hd w1)).
Proof.
  intros Hh Hc. unfold Server.serve. rewrite Hh, Hc.
  destruct (hd w1) as [[resp|e] w2]; reflexivity.
Qed.

(** *** Get by id *)

(** C10: when the SELECT of Get-by-id returns more than one row, the
    response is HTTP 200 and its body is the first row of the result, as
    JSON renders it (for a row of plain values, the row itself); the other
    rows are not in it. *)
Theorem read_by_id_first_row (table id : string) (w w1 : World) (h : Handle)
    (c : Completion) (st : Store) (row0 row1 : Row) (others : list Row) :
  table <> EmptyString ->
  checkDatabaseConnection w = (None, w1) ->
  db w1 = Some h ->
  db_all h {| sql := "SELECT * FROM " ++ table ++ " WHERE id = ?";
              params := [JStr id] |} (store w1) = (c, st) ->
  after c < deadline ->
  reply c = Rows (row0 :: row1 :: others) ->
  fst (serve (ReadById table id) w)
  = {| status := 200; body := json (JObj row0) |}
  /\ (plain (JObj row0) = true ->
      fst (serve (ReadById table id) w) = {| status := 200; body := JObj row0 |}).
Proof.
  intros Ht Hc Hdb Hall Hlt Hrep.
  assert (Hserve : fst (serve (ReadById table id) w)
                   = {| status := 200; body := json (JObj row0) |}).
  { erewrite serve_passed; [|reflexivity|exact Hc].
    unfold read_by_id. destruct table as [|a table']; [congruence|].
    cbn [falsy andb]. rewrite try_query_eq.
    rewrite (query_rows _ _ _ _ _ _ _ _ Hdb Hall Hlt Hrep). reflexivity. }
  split; [exact Hserve|].
  intros Hplain. rewrite Hserve, (json_plain _ Hplain). reflexivity.
Qed.

(** *** Delete *)

(** C7: Delete first runs the existence-check SELECT; when that returns no
    row (and, being a SELECT, leaves the database as it is) the response is
    404, the SELECT is the only statement handed to the driver, and the
    database is unchanged.  In every case the SELECT is the first statement
    Delete issues, and the only one that can follow it is the DELETE. *)
Theorem delete_missing_row_not_found (table id : string) (w w1 : World) (h : Handle) :
  checkDatabaseConnection w = (None, w1) ->
  db w1 = Some h ->
  let check := {| sql := "SELECT * FROM " ++ table ++ " WHERE id = ?"; params := [JStr id] |} in
  let del := {| sql := "DELETE FROM " ++ table ++ " WHERE id = ?"; params := [JStr id] |} in
  (issued (snd (serve (Delete table id) w)) = (issued w1 ++ [(h, check)])%list
   \/ issued (snd (serve (Delete table id) w)) = (issued w1 ++ [(h, check); (h, del)])%list)
  /\ (forall c,
        db_all h check (store w1) = (c, store w1) ->
        after c < deadline ->
        reply c = Rows [] ->
        serve (Delete table id) w
        = ({| status := 404;
              body := JObj [("message",
                             JStr ("O id '" ++ id ++ "' não encontrado na tabela '" ++ table ++ "'."))] |},
           after_call w1 h check (store w1))).
Proof.
  intros Hc Hdb check del.
  erewrite serve_passed; [|reflexivity|exact Hc]. cbn [snd].
  unfold delete. fold check del. split.
  - rewrite try_query_eq.
    pose proof (query_issues (sql check) (params check) (timeout config) w1 h Hdb)
      as (Hdb' & _ & Hiss & _).
    cbn [sql params check] in Hdb', Hiss.
    destruct (query _ _ (timeout config) w1) as [[rows|e] w2].
    + cbn [snd] in Hdb', Hiss. destruct rows as [|r rows].
      * left. exact Hiss.
      * right. rewrite try_query_world.
        rewrite Hdb in Hdb'.
        pose proof (query_issues (sql del) (params del) (timeout config) w2 h Hdb')
          as (_ & _ & Hiss2 & _).
        cbn [sql params del] in Hiss2. rewrite Hiss2, Hiss.
        rewrite <- app_assoc. reflexivity.
    + left. exact Hiss.
  - intros c Hall Hlt Hrep. rewrite try_query_eq.
    rewrite (query_rows _ _ _ _ _ _ _ _ Hdb Hall Hlt Hrep). reflexivity.
Qed.

(** *** Paginate *)

(** The connection check issues no statement and always leaves a handle
    in [dbManager.db]; when it fails, what it hands on is the fixed
    connection message. *)
Lemma check_world (w : World) :
  issued (snd (checkDatabaseConnection w)) = issued w
  /\ store (snd (checkDatabaseConnection w)) = store w
  /\ exists h, db (snd (checkDatabaseConnection w)) = Some h.
Proof.
  unfold Server.checkDatabaseConnection, Server.connect.
  destruct (db w) as [h|] eqn:Hdb.
  - cbn. eauto.
  - destruct (db_open _ _); cbn; eauto.
Qed.

Lemma check_refusal (w : World) (e : Err) :
  fst (checkDatabaseConnection w) = Some e ->
  e = {| message := "Falha na conexão com o banco de dados" |}.
Proof.
  unfold Server.checkDatabaseConnection, Server.connect.
  destruct (db w) as [h|]; [discriminate|].
  destruct (db_open _ _); cbn; [intros [= <-]; reflexivity | discriminate].
Qed.

(** A request on a data route, whatever the connection check says. *)
Lemma serve_checked (r : Request) (hd : Handler Store) (w : World) :
  handler r = Some hd ->
  serve r w
  = match fst (checkDatabaseConnection w) with
    | Some _ =>
        (errorHandler {| message := "Falha na conexão com o banco de dados" |},
         snd (checkDatabaseConnection w))
    | None =>
        (match fst (hd (snd (checkDatabaseConnection w))) with
         | Send resp => resp
         | Next e => errorHandler e
         end, snd (hd (snd (checkDatabaseConnection w))))
    end.
Proof.
  intros Hh. unfold Server.serve. rewrite Hh.
  pose proof (check_refusal w) as Href.
  destruct (checkDatabaseConnection w) as [[e|] w1]; cbn [fst snd] in *.
  - now rewrite (Href e eq_refl).
  - destruct (hd w1) as [[resp|e] w2]; reflexivity.
Qed.

(** The rows of a response, as JSON renders them. *)
Lemma json_rows (rows : list Row) :
  json (rows_val rows) = JArr (map (fun row => json (JObj row)) rows).
Proof.
  unfold rows_val. cbn [json]. f_equal. rewrite map_map.
  apply map_ext. intros row. reflexivity.
Qed.

Lemma plain_rows (rows : list Row) :
  forallb (fun row => plain (JObj row)) rows = true ->
  map (fun row => json (JObj row)) rows = map JObj rows.
Proof.
  induction rows as [|row rows IH]; [reflexivity|].
  cbn [forallb map]. intros H. apply andb_prop in H as [H1 H2].
  now rewrite (json_plain _ H1), (IH H2).
Qed.

(** The statement Paginate builds from two present, non-empty parameters:
    whatever [parseInt] makes of them, [NaN] included, is handed to the
    driver. *)
Lemma pagination_issues (table : string) (a b : ascii) (page limit : string)
    (w w1 : World) (h : Handle) :
  checkDatabaseConnection w = (None, w1) ->
  db w1 = Some h ->
  let pageNumber := parseInt (String a page) in
  let limitNumber := parseInt (String b limit) in
  issued (snd (serve (Pagination table (Some (String a page)) (Some (String b limit))) w))
  = (issued w1
     ++ [(h, {| sql := "SELECT * FROM " ++ table ++ " LIMIT ? OFFSET ?";
                params := [num limitNumber;
                           num (mul (sub pageNumber (Finite 1)) limitNumber)] |})])%list.
Proof.
  intros Hc Hdb pageNumber limitNumber.
  erewrite serve_passed; [|reflexivity|exact Hc]. cbn [snd].
  unfold pagination. cbn [query_param falsy orb to_string].
  fold pageNumber limitNumber.
  set (ok := fun rows : list Row => match rows with [] => _ | _ :: _ => _ end).
  rewrite (try_query_eq _ _ ok).
  pose proof (query_issues ("SELECT * FROM " ++ table ++ " LIMIT ? OFFSET ?")
                [num limitNumber;
                 num (mul (sub pageNumber (Finite 1)) limitNumber)]
                (timeout config) w1 h Hdb) as (_ & _ & Hiss & _).
  destruct (query _ _ (timeout config) w1) as [[rows|e] w2]; cbn [snd] in *.
  - subst ok. destruct rows; exact Hiss.
  - exact Hiss.
Qed.


(** Within the integers that binary64 holds exactly, the offset is the
    product of the integers. *)
Lemma offset_exact (p l : Z) :
  1 <= p -> 1 <= l -> (p - 1) * l <= MAX_SAFE_INTEGER ->
  mul (sub (Finite p) (Finite 1)) (Finite l) = Finite ((p - 1) * l).
Proof.
  intros Hp Hl Hmax. unfold MAX_SAFE_INTEGER in Hmax.
  change (2 ^ 53) with 9007199254740992 in Hmax.
  assert (Hp1 : p - 1 < 9007199254740992) by nia.
  assert (Hsmall : forall z, 0 <= z < 9007199254740992 -> to_number z = Finite z).
  { intros z Hz. unfold to_number.
    destruct (z =? 0) eqn:E; [apply Z.eqb_eq in E; now subst|].
    apply Z.eqb_neq in E. unfold round_magnitude, two53.
    rewrite Z.abs_eq by lia.
    assert (Hlt : (z <? 9007199254740992) = true) by (apply Z.ltb_lt; lia).
    rewrite Hlt. f_equal. rewrite Z.sgn_pos by lia. lia. }
  assert (Hsub : sub (Finite p) (Finite 1) = Finite (p - 1)).
  { unfold sub. cbn [magnitude]. apply Hsmall. lia. }
  rewrite Hsub. unfold mul. cbn [magnitude is_negative].
  destruct ((p - 1) * l =? 0) eqn:E.
  - apply Z.eqb_eq in E. rewrite E.
    assert (H1 : (p - 1 <? 0) = false) by (apply Z.ltb_ge; lia).
    assert (H2 : (l <? 0) = false) by (apply Z.ltb_ge; lia).
    now rewrite H1, H2.
  - apply Hsmall. nia.
Qed.


(** *** The shape of responses *)

(** What the error handler sends: 408 or 500, an object with
    [status: 'error'] and a message, and [detail] and [stack] exactly on a
    500 in development mode. *)
Lemma errorHandler_shape (e : Err) :
  let resp := errorHandler e in
  (status resp = 408 \/ status resp = 500)
  /\ (exists o, body resp = JObj o)
  /\ field "status" (body resp) = JStr "error"
  /\ (exists m, field "message" (body resp) = JStr m)
  /\ (field "detail" (body resp) <> JUndefined \/ field "stack" (body resp) <> JUndefined ->
      status resp = 500 /\ nodeEnv config = "development")
  /\ (status resp = 500 -> nodeEnv config = "development" ->
      field "detail" (body resp) = JStr (message e)).
Proof.
  unfold Server.errorHandler.
  destruct (String.eqb (message e) "DATABASE_TIMEOUT").
  - cbn. repeat split; eauto; try discriminate;
      match goal with H : _ \/ _ |- _ => destruct H as [H|H]; now elim H end.
  - destruct (String.eqb (nodeEnv config) "development") eqn:Hdev.
    + apply String.eqb_eq in Hdev. cbn. repeat split; eauto.
    + cbn. repeat split; eauto;
        try match goal with H : _ \/ _ |- _ => destruct H as [H|H]; now elim H end.
      intros _ Hd. rewrite Hd in Hdev. discriminate.
Qed.

Ltac shape_done :=
  cbn; unfold sent_shape; cbn;
  repeat split; eauto 8; try discriminate;
  try (intros ? [= <-]; eauto).

Lemma handler_shape (r : Request) (hd : Handler Store) (w : World) (resp : Response) :
  handler r = Some hd ->
  fst (hd w) = Send resp ->
  sent_shape r resp.
Proof.
  destruct r as [table|table id|table page limit|table id fields|table id
                |table fields|fields|table fields|]; intros [= <-].
  - unfold read_table. rewrite try_query_eq.
    destruct (query _ _ _ w) as [[rows|e] w'].
    + intros [= <-]. shape_done.
    + unfold next_localized. destruct (includes _ _); discriminate.
  - unfold read_by_id. destruct (falsy (JStr table) && falsy (JStr id)).
    + intros [= <-]. shape_done.
    + rewrite try_query_eq. destruct (query _ _ _ w) as [[[|row0 rows]|e] w'].
      * intros [= <-]. shape_done.
      * intros [= <-]. shape_done.
      * unfold next_localized. destruct (includes _ _); discriminate.
  - unfold pagination.
    destruct (falsy (query_param page) || falsy (query_param limit)).
    + intros [= <-]. shape_done.
    + rewrite try_query_eq. destruct (query _ _ _ w) as [[[|row0 rows]|e] w'].
      * intros [= <-]. shape_done.
      * intros [= <-]. unfold sent_shape. cbn [status body].
        split; [left; reflexivity|].
        split; [right; do 5 eexists; repeat split; reflexivity|].
        intros ? [=].
      * unfold next_localized. destruct (includes _ _); discriminate.
  - unfold update. destruct (0 <? length fields)%nat;
      rewrite try_query_eq; destruct (query _ _ _ w) as [[rows|e] w'];
      try (intros [= <-]; shape_done);
      unfold next_localized; destruct (includes _ _); discriminate.
  - unfold delete. rewrite try_query_eq.
    destruct (query _ _ _ w) as [[[|row0 rows]|e] w'].
    + intros [= <-]. shape_done.
    + rewrite try_query_eq. destruct (query _ _ _ w') as [[rows'|e] w''].
      * intros [= <-]. shape_done.
      * unfold next_localized. destruct (includes _ _); discriminate.
    + unfold next_localized. destruct (includes _ _); discriminate.
  - unfold create. destruct (0 <? length fields)%nat;
      rewrite try_query_eq; destruct (query _ _ _ w) as [[rows|e] w'];
      try (intros [= <-]; shape_done);
      destruct (includes _ _); discriminate.
  - unfold add_table.
    destruct (falsy (get "tableName" fields) || falsy (get "columns" fields)).
    + intros [= <-]. shape_done.
    + rewrite try_query_eq. destruct (query _ _ _ w) as [[rows|e] w'].
      * intros [= <-]. shape_done.
      * discriminate.
  - unfold add_column. rewrite try_query_eq.
    destruct (query _ _ _ w) as [[rows|e] w'].
    + intros [= <-]. shape_done.
    + unfold next_localized. destruct (includes _ _); discriminate.
Qed.

Lemma errorHandler_envelope (r : Request) (e : Err) :
  r <> Unmatched -> Envelope r (errorHandler e).
Proof.
  intros Hr. unfold Server.errorHandler.
  destruct (String.eqb (message e) "DATABASE_TIMEOUT").
  - apply TimedOut; [exact Hr | reflexivity].
  - destruct (String.eqb (nodeEnv config) "development") eqn:Hdev.
    + apply String.eqb_eq in Hdev.
      apply (FailedInDevelopment config r _ (message e) (stack_of e));
        [exact Hr | exact Hdev | reflexivity].
    + apply Failed; [exact Hr | | reflexivity].
      intros Hd. rewrite Hd in Hdev. discriminate.
Qed.

Ltac acknowledged :=
  intros [= <-];
  eapply Acknowledgment; [discriminate | intros ?; discriminate | reflexivity].

Ltac refused :=
  intros [= <-];
  eapply Refusal; cycle 2;
  [reflexivity | discriminate | (left; reflexivity) || (right; reflexivity)].

Lemma handler_envelope (r : Request) (hd : Handler Store) (w : World) (resp : Response) :
  handler r = Some hd ->
  fst (hd w) = Send resp ->
  Envelope r resp.
Proof.
  destruct r as [table|table id|table page limit|table id fields|table id
                |table fields|fields|table fields|]; intros [= <-].
  - unfold read_table. rewrite try_query_eq.
    destruct (query _ _ _ w) as [[rows|e] w'].
    + intros [= <-]. apply (ListRows config _ _ table rows); [reflexivity|].
      rewrite <- json_rows. reflexivity.
    + unfold next_localized. destruct (includes _ _); discriminate.
  - unfold read_by_id. destruct (falsy (JStr table) && falsy (JStr id)).
    + refused.
    + rewrite try_query_eq. destruct (query _ _ _ w) as [[[|row0 rows]|e] w'].
      * refused.
      * intros [= <-]. apply (BareRow config _ _ table id row0); reflexivity.
      * unfold next_localized. destruct (includes _ _); discriminate.
  - unfold pagination.
    destruct (falsy (query_param page) || falsy (query_param limit)).
    + refused.
    + rewrite try_query_eq. destruct (query _ _ _ w) as [[[|row0 rows]|e] w'].
      * acknowledged.
      * intros [= <-]. apply (BarePage config _ _ table page limit row0 rows);
          [reflexivity|].
        rewrite <- json_rows. reflexivity.
      * unfold next_localized. destruct (includes _ _); discriminate.
  - unfold update. destruct (0 <? length fields)%nat;
      rewrite try_query_eq; destruct (query _ _ _ w) as [[rows|e] w'];
      try acknowledged;
      unfold next_localized; destruct (includes _ _); discriminate.
  - unfold delete. rewrite try_query_eq.
    destruct (query _ _ _ w) as [[[|row0 rows]|e] w'].
    + refused.
    + rewrite try_query_eq. destruct (query _ _ _ w') as [[rows'|e] w''].
      * acknowledged.
      * unfold next_localized. destruct (includes _ _); discriminate.
    + unfold next_localized. destruct (includes _ _); discriminate.
  - unfold create. destruct (0 <? length fields)%nat;
      rewrite try_query_eq; destruct (query _ _ _ w) as [[rows|e] w'];
      try acknowledged;
      destruct (includes _ _); discriminate.
  - unfold add_table.
    destruct (falsy (get "tableName" fields) || falsy (get "columns" fields)).
    + intros [= <-]. eapply TableRefusal; reflexivity.
    + rewrite try_query_eq. destruct (query _ _ _ w) as [[rows|e] w'].
      * acknowledged.
      * discriminate.
  - unfold add_column. rewrite try_query_eq.
    destruct (query _ _ _ w) as [[rows|e] w'].
    + acknowledged.
    + unfold next_localized. destruct (includes _ _); discriminate.
Qed.

Lemma serve_envelope (r : Request) (w : World) : Envelope r (fst (serve r w)).
Proof.
  unfold Server.serve. destruct (handler r) as [hd|] eqn:Hh.
  - assert (Hr : r <> Unmatched) by (intros ->; discriminate).
    destruct (checkDatabaseConnection w) as [[e|] w1].
    + now apply errorHandler_envelope.
    + destruct (hd w1) as [[resp|e] w2] eqn:Hhd; cbn [fst].
      * apply (handler_envelope r hd w1); [exact Hh | now rewrite Hhd].
      * now apply errorHandler_envelope.
  - destruct r; try discriminate. now apply Fallback.
Qed.


(** *** Errors of the driver *)

(** The shared [catch] block turns SQLite's message for a missing table
    into the localized one. *)
Lemma next_localized_no_such_table (table : string) :
  next_localized {| message := "SQLITE_ERROR: no such table: " ++ table |}
  = Next {| message := "SQLITE_ERROR: Não existe a tabela: " ++ table |}.
Proof. reflexivity. Qed.

(** List, on a table the database does not have: the localized error
    reaches the error handler. *)
Lemma read_table_no_such_table (table : string) (w w1 : World) (h : Handle)
    (c : Completion) (st : Store) :
  checkDatabaseConnection w = (None, w1) ->
  db w1 = Some h ->
  db_all h {| sql := "SELECT * FROM " ++ table ++ " LIMIT 10"; params := [] |} (store w1)
  = (c, st) ->
  after c < deadline ->
  reply c = Failure ("SQLITE_ERROR: no such table: " ++ table) ->
  fst (serve (ReadTable table) w)
  = errorHandler {| message := "SQLITE_ERROR: Não existe a tabela: " ++ table |}.
Proof.
  intros Hc Hdb Hall Hlt Hrep.
  erewrite serve_passed; [|reflexivity|exact Hc]. cbn [fst].
  unfold read_table. rewrite try_query_eq.
  rewrite (query_failure _ _ _ _ _ _ _ _ Hdb Hall Hlt Hrep). reflexivity.
Qed.

(** C1: Create does not localize.  When the driver rejects the INSERT with
    a message that says "no such table" (and does not mention a unique
    constraint), the error that reaches the error handler carries the
    driver's message as it is, and in development mode the response shows
    it under [detail]. *)
Theorem create_forwards_raw_no_such_table (table : string) (fields : Obj)
    (w w1 : World) (h : Handle) (c : Completion) (st : Store) (m : string) :
  checkDatabaseConnection w = (None, w1) ->
  db w1 = Some h ->
  db_all h {| sql := "INSERT INTO " ++ table ++ " (" ++ join (map fst fields)
                      ++ ") VALUES (" ++ join (map (fun _ => "?") fields) ++ ")";
              params := map snd fields |} (store w1) = (c, st) ->
  after c < deadline ->
  reply c = Failure m ->
  includes "no such table" m = true ->
  includes "UNIQUE constraint failed" m = false ->
  fst (serve (Create table fields) w) = errorHandler {| message := m |}
  /\ (nodeEnv config = "development" -> m <> "DATABASE_TIMEOUT" ->
      field "detail" (body (fst (serve (Create table fields) w))) = JStr m).
Proof.
  intros Hc Hdb Hall Hlt Hrep Hno Huniq.
  assert (Hserve : fst (serve (Create table fields) w) = errorHandler {| message := m |}).
  { erewrite serve_passed; [|reflexivity|exact Hc]. cbn [fst].
    unfold create.
    destruct fields as [|kv fields'].
    - cbn [length Nat.ltb Nat.leb] in *. cbn [map] in Hall.
      rewrite try_query_eq, (query_failure _ _ _ _ _ _ _ _ Hdb Hall Hlt Hrep).
      cbn [fst message]. now rewrite Huniq.
    - cbn [length Nat.ltb Nat.leb].
      rewrite try_query_eq, (query_failure _ _ _ _ _ _ _ _ Hdb Hall Hlt Hrep).
      cbn [fst message]. now rewrite Huniq. }
  split; [exact Hserve|].
  intros Hdev Hm. rewrite Hserve.
  destruct (errorHandler_shape {| message := m |}) as (Hs & _ & _ & _ & _ & Hd).
  apply Hd; [|exact Hdev].
  destruct Hs as [Hs|Hs]; [|exact Hs].
  unfold Server.errorHandler in Hs. cbn [message] in Hs.
  destruct (String.eqb m "DATABASE_TIMEOUT") eqn:E.
  - apply String.eqb_eq in E. contradiction.
  - discriminate.
Qed.

(** *** Update and Create acknowledgments *)

(** C3: Update with an empty body is not rejected.  The statement
    [UPDATE <table> SET  WHERE id = ?] is handed to the driver, and the
    response is never a 400. *)
Theorem update_empty_body_reaches_driver (table id : string) (w w1 : World) (h : Handle) :
  checkDatabaseConnection w = (None, w1) ->
  db w1 = Some h ->
  issued (snd (serve (Update table id []) w))
  = (issued w1 ++ [(h, {| sql := "UPDATE " ++ table ++ " SET  WHERE id = ?";
                          params := [JStr id] |})])%list
  /\ status (fst (serve (Update table id []) w)) <> 400.
Proof.
  intros Hc Hdb.
  erewrite serve_passed; [|reflexivity|exact Hc]. cbn [fst snd].
  unfold update. cbn [length Nat.ltb Nat.leb map app join].
  split.
  - rewrite try_query_world.
    pose proof (query_issues ("UPDATE " ++ table ++ " SET  WHERE id = ?") [JStr id]
                  (timeout config) w1 h Hdb) as (_ & _ & Hiss & _).
    exact Hiss.
  - rewrite try_query_eq.
    destruct (query _ _ _ w1) as [[rows|e] w2]; cbn [fst].
    + discriminate.
    + unfold next_localized.
      destruct (includes _ _);
        match goal with
        | |- status (errorHandler ?x) <> _ =>
            destruct (errorHandler_shape x) as ([Hs|Hs] & _); rewrite Hs; discriminate
        end.
Qed.

(** C4: the acknowledgment of a successful Create is the message alone;
    it has no [id] field. *)
Theorem create_acknowledgment_without_id (table : string) (fields : Obj) (w : World) :
  status (fst (serve (Create table fields) w)) = 200 ->
  body (fst (serve (Create table fields) w))
  = JObj [("message", JStr "Cadastro criado com sucesso!")]
  /\ field "id" (body (fst (serve (Create table fields) w))) = JUndefined.
Proof.
  unfold Server.serve. cbn [Server.handler].
  destruct (checkDatabaseConnection w) as [[e|] w1].
  - cbn [fst]. intros H.
    destruct (errorHandler_shape e) as ([Hs|Hs] & _); rewrite Hs in H; discriminate.
  - unfold create.
    destruct (0 <? length fields)%nat; rewrite try_query_eq;
      destruct (query _ _ _ w1) as [[rows|e] w2]; cbn [fst];
      try (intros _; split; reflexivity);
      destruct (includes _ _); cbn [fst]; intros H;
      match type of H with
      | status (errorHandler ?x) = _ =>
          destruct (errorHandler_shape x) as ([Hs|Hs] & _); rewrite Hs in H; discriminate
      end.
Qed.

(** *** Timeouts *)

Lemma errorHandler_timeout :
  errorHandler {| message := "DATABASE_TIMEOUT" |}
  = {| status := 408;
       body := JObj [("status", JStr "error");
                     ("message", JStr "A consulta excedeu o tempo limite de 3 minutos")] |}.
Proof. reflexivity. Qed.

Lemma query_slow (sql : string) (ps : list Val) (w : World) (h : Handle) :
  db w = Some h ->
  (forall s st, deadline < after (fst (db_all h s st))) ->
  fst (query sql ps (timeout config) w) = Rejected {| message := "DATABASE_TIMEOUT" |}.
Proof.
  intros Hdb Hslow.
  destruct (db_all h {| sql := sql; params := ps |} (store w)) as [c st] eqn:Hall.
  pose proof (Hslow {| sql := sql; params := ps |} (store w)) as Hlt.
  rewrite Hall in Hlt. cbn [fst] in Hlt.
  now rewrite (query_timeout _ _ _ _ _ _ _ Hdb Hall Hlt).
Qed.

Ltac timed_out Hdb Hslow :=
  rewrite try_query_eq;
  match goal with
  | |- context [query ?q ?ps (timeout config) ?w] =>
      let H := fresh "Hq" in
      pose proof (query_slow q ps w _ Hdb Hslow) as H;
      destruct (query q ps (timeout config) w) as [[?|?] ?];
      cbn [fst] in H; [discriminate H | injection H as ->]
  end.

(** With a driver that answers after the deadline, every operation that
    reaches the driver through the shared [catch] block, or through
    Create's, is answered 408. *)
Lemma slow_driver_is_408 (r : Request) (w w1 : World) (h : Handle) :
  checkDatabaseConnection w = (None, w1) ->
  db w1 = Some h ->
  (forall s st, deadline < after (fst (db_all h s st))) ->
  r <> Unmatched ->
  (forall fields, r <> AddTable fields) ->
  fst (serve r w) = errorHandler {| message := "DATABASE_TIMEOUT" |}
  \/ status (fst (serve r w)) = 400.
Proof.
  intros Hc Hdb Hslow Hu Ha.
  destruct r as [table|table id|table page limit|table id fields|table id
                |table fields|fields|table fields|];
    try (now elim Hu); try (now elim (Ha fields));
    (erewrite serve_passed; [|reflexivity|exact Hc]); cbn [fst].
  - unfold read_table. timed_out Hdb Hslow. now left.
  - unfold read_by_id. destruct (falsy (JStr table) && falsy (JStr id)).
    + now right.
    + timed_out Hdb Hslow. now left.
  - unfold pagination.
    destruct (falsy (query_param page) || falsy (query_param limit)).
    + now right.
    + timed_out Hdb Hslow. now left.
  - unfold update. destruct (0 <? length fields)%nat; timed_out Hdb Hslow; now left.
  - unfold delete. timed_out Hdb Hslow. now left.
  - unfold create. destruct (0 <? length fields)%nat; timed_out Hdb Hslow; now left.
  - unfold add_column. timed_out Hdb Hslow. now left.
Qed.

(** C2: Create table is the exception.  Its [catch] block prefixes the
    message of every error, the timeout's included, so the error handler
    does not recognise the timeout and answers 500. *)
Theorem add_table_timeout_is_500 (fields : Obj) (w w1 : World) (h : Handle)
    (c : Completion) (st : Store) :
  checkDatabaseConnection w = (None, w1) ->
  db w1 = Some h ->
  falsy (get "tableName" fields) || falsy (get "columns" fields) = false ->
  db_all h {| sql := "CREATE TABLE IF NOT EXISTS " ++ to_string (get "tableName" fields)
                      ++ " (" ++ to_string (get "columns" fields) ++ ");";
              params := [] |} (store w1) = (c, st) ->
  deadline < after c ->
  fst (serve (AddTable fields) w)
  = errorHandler {| message := "Erro ao criar a tabela: DATABASE_TIMEOUT" |}
  /\ status (fst (serve (AddTable fields) w)) = 500
  /\ field "message" (body (fst (serve (AddTable fields) w)))
     = JStr "Erro interno do servidor".
Proof.
  intros Hc Hdb Hf Hall Hlt.
  assert (Hserve : fst (serve (AddTable fields) w)
                   = errorHandler {| message := "Erro ao criar a tabela: DATABASE_TIMEOUT" |}).
  { erewrite serve_passed; [|reflexivity|exact Hc]. cbn [fst].
    unfold add_table. rewrite Hf, try_query_eq.
    rewrite (query_timeout _ _ _ _ _ _ _ Hdb Hall Hlt). reflexivity. }
  rewrite Hserve. split; [reflexivity|].
  unfold Server.errorHandler. cbn [message].
  change (String.eqb "Erro ao criar a tabela: DATABASE_TIMEOUT" "DATABASE_TIMEOUT")
    with false.
  destruct (String.eqb (nodeEnv config) "development"); split; reflexivity.
Qed.

(** *** The connection over a sequence of requests *)

(** A handler keeps [dbManager.db] and the number of handles, and every
    statement it issues runs on the handle it found. *)
Lemma handler_world (r : Request) (hd : Handler Store) (w : World) (h : Handle) :
  handler r = Some hd ->
  db w = Some h ->
  let w' := snd (hd w) in
  db w' = Some h /\ opened w' = opened w
  /\ exists l, issued w' = (issued w ++ l)%list /\ Forall (fun e => fst e = h) l.
Proof.
  intros Hh Hdb.
  assert (Hone : forall q ps (w0 : World), db w0 = Some h ->
            let w' := snd (query q ps (timeout config) w0) in
            db w' = Some h /\ opened w' = opened w0
            /\ exists l, issued w' = (issued w0 ++ l)%list /\ Forall (fun e => fst e = h) l).
  { intros q ps w0 H0.
    destruct (query_issues q ps (timeout config) w0 h H0) as (H1 & H2 & H3 & _).
    cbv zeta. rewrite H1, H2, H3. repeat split; auto.
    eexists. split; [reflexivity|]. repeat constructor. }
  assert (Hnone : db w = Some h /\ opened w = opened w
            /\ exists l, issued w = (issued w ++ l)%list /\ Forall (fun e => fst e = h) l).
  { repeat split; auto. exists []. now rewrite app_nil_r. }
  destruct r as [table|table id|table page limit|table id fields|table id
                |table fields|fields|table fields|];
    try discriminate Hh; injection Hh as <-; cbv zeta.
  - unfold read_table. rewrite try_query_world. now apply Hone.
  - unfold read_by_id. destruct (falsy (JStr table) && falsy (JStr id)).
    + exact Hnone.
    + set (ok := fun row : list Row => match row with [] => _ | _ :: _ => _ end).
      rewrite try_query_eq.
      pose proof (Hone ("SELECT * FROM " ++ table ++ " WHERE id = ?") [JStr id] w Hdb) as H.
      destruct (query _ _ _ w) as [[rows|e] w2]; cbn [snd] in *; [|exact H].
      subst ok. destruct rows; exact H.
  - unfold pagination.
    destruct (falsy (query_param page) || falsy (query_param limit)).
    + exact Hnone.
    + set (ok := fun rows : list Row => match rows with [] => _ | _ :: _ => _ end).
      rewrite try_query_eq.
      match goal with
      | |- context [query ?q ?ps _ w] => pose proof (Hone q ps w Hdb) as H
      end.
      destruct (query _ _ _ w) as [[rows|e] w2]; cbn [snd] in *; [|exact H].
      subst ok. destruct rows; exact H.
  - unfold update. destruct (0 <? length fields)%nat;
      rewrite try_query_world; now apply Hone.
  - unfold delete. rewrite try_query_eq.
    pose proof (Hone ("SELECT * FROM " ++ table ++ " WHERE id = ?") [JStr id] w Hdb) as H.
    destruct (query _ _ _ w) as [[rows|e] w2]; cbn [snd] in *; [|exact H].
    destruct rows as [|row0 rows]; [exact H|].
    destruct H as (H1 & H2 & l & H3 & H4).
    rewrite try_query_world.
    destruct (Hone ("DELETE FROM " ++ table ++ " WHERE id = ?") [JStr id] w2 H1)
      as (G1 & G2 & l' & G3 & G4).
    repeat split; [exact G1 | congruence |].
    exists (l ++ l')%list. split.
    + rewrite G3, H3, app_assoc. reflexivity.
    + apply Forall_app. now split.
  - unfold create. destruct (0 <? length fields)%nat;
      rewrite try_query_world; now apply Hone.
  - unfold add_table.
    destruct (falsy (get "tableName" fields) || falsy (get "columns" fields)).
    + exact Hnone.
    + rewrite try_query_world. now apply Hone.
  - unfold add_column. rewrite try_query_world. now apply Hone.
Qed.

Lemma serve_one_handle (r : Request) (w : World) :
  one_handle w -> one_handle (snd (serve r w)).
Proof.
  intros Hinv. unfold Server.serve.
  destruct (handler r) as [hd|] eqn:Hh; [|exact Hinv].
  assert (Hafter : forall w1 h, db w1 = Some h -> one_handle w1 -> one_handle (snd (hd w1))).
  { intros w1 h Hdb H1.
    destruct (handler_world r hd w1 h Hh Hdb) as (G1 & G2 & l & G3 & G4).
    unfold one_handle in *. rewrite Hdb in H1. rewrite G1, G2, G3.
    destruct H1 as (H1 & H2 & H3). repeat split; auto.
    apply Forall_app. now split. }
  unfold Server.checkDatabaseConnection.
  destruct (db w) as [h|] eqn:Hdb.
  - specialize (Hafter w h Hdb Hinv).
    destruct (hd w) as [[resp|e] w2]; exact Hafter.
  - unfold one_handle in Hinv. rewrite Hdb in Hinv. destruct Hinv as (Hop & Hiss).
    unfold Server.connect. rewrite Hop.
    destruct (db_open O (dbPath config)) as [m|] eqn:Hopen.
    + cbn [snd]. unfold one_handle. cbn. rewrite Hopen, Hiss. auto.
    + match goal with
      | |- one_handle (snd (let '(_, _) := hd ?w1 in _)) =>
          assert (H1 : one_handle w1)
            by (unfold one_handle; cbn; rewrite Hopen, Hiss; auto);
          specialize (Hafter w1 _ eq_refl H1);
          destruct (hd w1) as [[resp|e] w2]; exact Hafter
      end.
Qed.

Lemma run_one_handle (rs : list Request) (w : World) :
  one_handle w -> one_handle (snd (run rs w)).
Proof.
  revert w. induction rs as [|r rs IH]; intros w Hinv; [exact Hinv|].
  cbn [Server.run].
  pose proof (serve_one_handle r w Hinv) as H1.
  destruct (serve r w) as [resp w1]. cbn [snd] in H1.
  specialize (IH w1 H1).
  destruct (run rs w1) as [resps w2]. exact IH.
Qed.

(** The parts of the connection contract that hold: from process start, at
    most one handle is ever constructed, whatever the requests; and when
    the open succeeded, every statement ran on an established handle. *)
Lemma connection_opened_once (rs : list Request) (st : Store) :
  (opened (snd (run rs (boot Store st))) <= 1)%nat.
Proof.
  pose proof (run_one_handle rs (boot Store st)) as H.
  unfold one_handle in H at 2.
  destruct (db (snd (run rs (boot Store st)))).
  - destruct H as (-> & _); [cbn; auto | lia].
  - destruct H as (-> & _); [cbn; auto | lia].
Qed.

Lemma statements_on_established_handle (rs : list Request) (st : Store) :
  db_open O (dbPath config) = None ->
  Forall (fun e => established (fst e) = true) (issued (snd (run rs (boot Store st)))).
Proof.
  intros Hopen.
  pose proof (run_one_handle rs (boot Store st)) as H.
  unfold one_handle in H at 2.
  destruct (db (snd (run rs (boot Store st)))) as [h|].
  - destruct H as (_ & He & Hall); [cbn; auto|].
    rewrite Hopen in He.
    eapply Forall_impl; [|exact Hall]. intros e ->. exact He.
  - destruct H as (_ & ->); [cbn; auto|]. constructor.
Qed.

(** C8: when the open of the database file fails, the first request is
    answered with the connection failure, but the handle stays in
    [dbManager.db]; the next request passes the connection check without a
    new open and its statement is handed to the driver on the handle that
    was never established. *)
Theorem query_on_failed_connection (table : string) (st : Store) (m : string) :
  db_open O (dbPath config) = Some m ->
  fst (serve (ReadTable table) (boot Store st))
  = errorHandler {| message := "Falha na conexão com o banco de dados" |}
  /\ issued (snd (run [ReadTable table; ReadTable table] (boot Store st)))
     = [({| established := false |},
         {| sql := "SELECT * FROM " ++ table ++ " LIMIT 10"; params := [] |})]
  /\ opened (snd (run [ReadTable table; ReadTable table] (boot Store st))) = 1%nat.
Proof.
  intros Hopen.
  assert (H1 : serve (ReadTable table) (boot Store st)
               = (errorHandler {| message := "Falha na conexão com o banco de dados" |},
                  {| db := Some {| established := false |}; store := st;
                     opened := 1; issued := [] |})).
  { unfold Server.serve, Server.checkDatabaseConnection, Server.connect.
    cbn [Server.handler db boot opened store issued]. rewrite Hopen. reflexivity. }
  split; [now rewrite H1|].
  cbn [Server.run]. rewrite H1.
  set (w1 := {| db := Some {| established := false |}; store := st;
                opened := 1; issued := [] |}).
  assert (Hc : checkDatabaseConnection w1 = (None, w1)) by reflexivity.
  assert (H2 : snd (serve (ReadTable table) w1)
               = snd (query ("SELECT * FROM " ++ table ++ " LIMIT 10") [] (timeout config) w1)).
  { erewrite serve_passed; [|reflexivity|exact Hc]. cbn [snd].
    unfold read_table. now rewrite try_query_world. }
  destruct (query_issues ("SELECT * FROM " ++ table ++ " LIMIT 10") [] (timeout config)
              w1 {| established := false |} eq_refl) as (_ & G2 & G3 & _).
  destruct (serve (ReadTable table) w1) as [resp w2]. cbn [snd] in *. subst w2.
  split; [exact G3 | exact G2].
Qed.

(** *** Further properties of the handlers *)

Local Abbreviation on_event := (Server.on_event Store).

(** Get by id, when the SELECT returns no row: 404 with a fixed message,
    after exactly that one statement. *)
Theorem read_by_id_missing_row (table id : string) (w w1 : World) (h : Handle)
    (c : Completion) (st : Store) :
  table <> EmptyString ->
  checkDatabaseConnection w = (None, w1) ->
  db w1 = Some h ->
  db_all h {| sql := "SELECT * FROM " ++ table ++ " WHERE id = ?";
              params := [JStr id] |} (store w1) = (c, st) ->
  after c < deadline ->
  reply c = Rows [] ->
  serve (ReadById table id) w
  = ({| status := 404; body := JObj [("message", JStr "User not found")] |},
     after_call w1 h {| sql := "SELECT * FROM " ++ table ++ " WHERE id = ?";
                        params := [JStr id] |} st).
Proof.
  intros Ht Hc Hdb Hall Hlt Hrep.
  erewrite serve_passed; [|reflexivity|exact Hc].
  unfold read_by_id. destruct table as [|a table']; [congruence|].
  cbn [falsy andb]. rewrite try_query_eq.
  rewrite (query_rows _ _ _ _ _ _ _ _ Hdb Hall Hlt Hrep). reflexivity.
Qed.

(** Paginate, when the SELECT returns no row: 200 with the message that
    the table is empty, whether or not the table has rows on other
    pages. *)
Theorem pagination_past_the_end (table : string) (a b : ascii) (page limit : string)
    (w w1 : World) (h : Handle) (c : Completion) (st : Store) :
  checkDatabaseConnection w = (None, w1) ->
  db w1 = Some h ->
  db_all h {| sql := "SELECT * FROM " ++ table ++ " LIMIT ? OFFSET ?";
              params := [num (parseInt (String b limit));
                         num (mul (sub (parseInt (String a page)) (Finite 1))
                                  (parseInt (String b limit)))] |} (store w1)
  = (c, st) ->
  after c < deadline ->
  reply c = Rows [] ->
  fst (serve (Pagination table (Some (String a page)) (Some (String b limit))) w)
  = {| status := 200;
       body := JObj [("message", JStr ("A tabela '" ++ table ++ "' está vazia."))] |}.
Proof.
  intros Hc Hdb Hall Hlt Hrep.
  erewrite serve_passed; [|reflexivity|exact Hc]. cbn [fst].
  unfold pagination. cbn [query_param falsy orb to_string].
  rewrite try_query_eq.
  rewrite (query_rows _ _ _ _ _ _ _ _ Hdb Hall Hlt Hrep). reflexivity.
Qed.

(** Delete, when the existence check finds the row: the SELECT and then
    one DELETE are issued, both with the id as their parameter, and the
    acknowledgment is sent once the DELETE has completed. *)
Theorem delete_existing_row (table id : string) (w w1 : World) (h : Handle)
    (c1 c2 : Completion) (st1 st2 : Store) (row : Row) (rows rows2 : list Row) :
  checkDatabaseConnection w = (None, w1) ->
  db w1 = Some h ->
  let check := {| sql := "SELECT * FROM " ++ table ++ " WHERE id = ?"; params := [JStr id] |} in
  let del := {| sql := "DELETE FROM " ++ table ++ " WHERE id = ?"; params := [JStr id] |} in
  db_all h check (store w1) = (c1, st1) ->
  after c1 < deadline ->
  reply c1 = Rows (row :: rows) ->
  db_all h del st1 = (c2, st2) ->
  after c2 < deadline ->
  reply c2 = Rows rows2 ->
  serve (Delete table id) w
  = ({| status := 200;
        body := JObj [("message", JStr ("ID '" ++ id ++ "' excluído com sucesso!"))] |},
     after_call (after_call w1 h check st1) h del st2).
Proof.
  intros Hc Hdb check del Hall1 Hlt1 Hrep1 Hall2 Hlt2 Hrep2.
  subst check del.
  erewrite serve_passed; [|reflexivity|exact Hc].
  unfold delete. rewrite try_query_eq.
  rewrite (query_rows _ _ _ _ _ _ _ _ Hdb Hall1 Hlt1 Hrep1).
  cbv beta iota. rewrite try_query_eq.
  set (w2 := after_call w1 h _ st1) in *.
  assert (Hdb2 : db w2 = Some h) by exact Hdb.
  assert (Hall2' : db_all h {| sql := "DELETE FROM " ++ table ++ " WHERE id = ?";
                               params := [JStr id] |} (store w2) = (c2, st2))
    by exact Hall2.
  rewrite (query_rows _ _ _ _ _ _ _ _ Hdb2 Hall2' Hlt2 Hrep2).
  reflexivity.
Qed.

(** Create, when the driver reports a violated unique constraint: the
    error handler receives the fixed message about the e-mail, the
    driver's own message is dropped, and the response is a 500. *)
Theorem create_unique_violation (table : string) (fields : Obj)
    (w w1 : World) (h : Handle) (c : Completion) (st : Store) (m : string) :
  checkDatabaseConnection w = (None, w1) ->
  db w1 = Some h ->
  db_all h {| sql := "INSERT INTO " ++ table ++ " (" ++ join (map fst fields)
                      ++ ") VALUES (" ++ join (map (fun _ => "?") fields) ++ ")";
              params := map snd fields |} (store w1) = (c, st) ->
  after c < deadline ->
  reply c = Failure m ->
  includes "UNIQUE constraint failed" m = true ->
  fst (serve (Create table fields) w) = errorHandler {| message := "O email já existe" |}
  /\ status (fst (serve (Create table fields) w)) = 500
  /\ (nodeEnv config = "development" ->
      field "detail" (body (fst (serve (Create table fields) w)))
      = JStr "O email já existe").
Proof.
  intros Hc Hdb Hall Hlt Hrep Huniq.
  assert (Hserve : fst (serve (Create table fields) w)
                   = errorHandler {| message := "O email já existe" |}).
  { erewrite serve_passed; [|reflexivity|exact Hc]. cbn [fst].
    unfold create.
    destruct fields as [|kv fields'].
    - cbn [length Nat.ltb Nat.leb] in *. cbn [map] in Hall.
      rewrite try_query_eq, (query_failure _ _ _ _ _ _ _ _ Hdb Hall Hlt Hrep).
      cbn [fst message]. now rewrite Huniq.
    - cbn [length Nat.ltb Nat.leb].
      rewrite try_query_eq, (query_failure _ _ _ _ _ _ _ _ Hdb Hall Hlt Hrep).
      cbn [fst message]. now rewrite Huniq. }
  rewrite Hserve. split; [reflexivity|].
  assert (Hs : status (errorHandler {| message := "O email já existe" |}) = 500).
  { unfold Server.errorHandler. cbn [message].
    change (String.eqb "O email já existe" "DATABASE_TIMEOUT") with false.
    reflexivity. }
  split; [exact Hs|].
  intros Hdev.
  destruct (errorHandler_shape {| message := "O email já existe" |})
    as (_ & _ & _ & _ & _ & Hd).
  exact (Hd Hs Hdev).
Qed.

(** Create with an empty body is not rejected either: the response is
    never a 400, and once the connection check has passed the statement
    [INSERT INTO <table> () VALUES ()] is handed to the driver without
    parameters (when the check fails, nothing is). *)
Theorem create_empty_body_reaches_driver (table : string) (w : World) :
  status (fst (serve (Create table []) w)) <> 400
  /\ forall h,
       db (snd (checkDatabaseConnection w)) = Some h ->
       issued (snd (serve (Create table []) w))
       = (issued w
          ++ match fst (checkDatabaseConnection w) with
             | None => [(h, {| sql := "INSERT INTO " ++ table ++ " () VALUES ()";
                               params := [] |})]
             | Some _ => []
             end)%list.
Proof.
  destruct (check_world w) as (Hiss & _ & _).
  erewrite serve_checked; [|reflexivity].
  destruct (checkDatabaseConnection w) as [[e|] w1]; cbn [fst snd] in *.
  - split.
    + match goal with
      | |- status (errorHandler ?x) <> _ =>
          destruct (errorHandler_shape x) as ([Hs|Hs] & _); rewrite Hs; discriminate
      end.
    + intros h _. now rewrite Hiss, app_nil_r.
  - unfold create. cbn [length Nat.ltb Nat.leb map join]. split.
    + rewrite try_query_eq.
      destruct (query _ _ _ w1) as [[rows|e] w2]; cbn [fst].
      * discriminate.
      * destruct (includes _ _);
          match goal with
          | |- status (errorHandler ?x) <> _ =>
              destruct (errorHandler_shape x) as ([Hs|Hs] & _); rewrite Hs; discriminate
          end.
    + intros h Hdb. rewrite try_query_world.
      pose proof (query_issues ("INSERT INTO " ++ table ++ " () VALUES ()") []
                    (timeout config) w1 h Hdb) as (_ & _ & Hq & _).
      rewrite Hiss in Hq. exact Hq.
Qed.

(** Create table, when [tableName] or [columns] is absent or falsy:
    nothing is handed to the driver and the database is left as it is; the
    answer is 400 with an [error] field, or, when the connection check of
    the request fails, the error handler's answer to the connection
    message. *)
Theorem add_table_missing_field (fields : Obj) (w : World) :
  falsy (get "tableName" fields) || falsy (get "columns" fields) = true ->
  issued (snd (serve (AddTable fields) w)) = issued w
  /\ store (snd (serve (AddTable fields) w)) = store w
  /\ fst (serve (AddTable fields) w)
     = match fst (checkDatabaseConnection w) with
       | None =>
           {| status := 400;
              body := JObj [("error", JStr "Nome da tabela e colunas são obrigatórios.")] |}
       | Some _ => errorHandler {| message := "Falha na conexão com o banco de dados" |}
       end.
Proof.
  intros Hf. destruct (check_world w) as (Hiss & Hst & _).
  erewrite serve_checked; [|reflexivity].
  destruct (fst (checkDatabaseConnection w)); cbn [fst snd].
  - auto.
  - unfold add_table. rewrite Hf. cbn. auto.
Qed.

(** Add column does not look at its body: with [columnName] and
    [columnType] absent the response is never a 400, and once the
    connection check has passed the statement built from the text
    ["undefined"] is handed to the driver (when the check fails, nothing
    is). *)
Theorem add_column_unvalidated (table : string) (fields : Obj) (w : World) :
  get "columnName" fields = JUndefined ->
  get "columnType" fields = JUndefined ->
  status (fst (serve (AddColumn table fields) w)) <> 400
  /\ forall h,
       db (snd (checkDatabaseConnection w)) = Some h ->
       issued (snd (serve (AddColumn table fields) w))
       = (issued w
          ++ match fst (checkDatabaseConnection w) with
             | None =>
                 [(h, {| sql := "ALTER TABLE " ++ table
                                ++ " ADD COLUMN undefined undefined;";
                         params := [] |})]
             | Some _ => []
             end)%list.
Proof.
  intros Hn Ht. destruct (check_world w) as (Hiss & _ & _).
  erewrite serve_checked; [|reflexivity].
  destruct (checkDatabaseConnection w) as [[e|] w1]; cbn [fst snd] in *.
  - split.
    + match goal with
      | |- status (errorHandler ?x) <> _ =>
          destruct (errorHandler_shape x) as ([Hs|Hs] & _); rewrite Hs; discriminate
      end.
    + intros h _. now rewrite Hiss, app_nil_r.
  - unfold add_column. rewrite Hn, Ht. cbn [to_string]. split.
    + rewrite try_query_eq.
      destruct (query _ _ _ w1) as [[rows|e] w2]; cbn [fst].
      * discriminate.
      * unfold next_localized.
        destruct (includes _ _);
          match goal with
          | |- status (errorHandler ?x) <> _ =>
              destruct (errorHandler_shape x) as ([Hs|Hs] & _); rewrite Hs; discriminate
          end.
    + intros h Hdb. rewrite try_query_world.
      pose proof (query_issues
                    ("ALTER TABLE " ++ table ++ " ADD COLUMN undefined undefined;") []
                    (timeout config) w1 h Hdb) as (_ & _ & Hq & _).
      rewrite Hiss in Hq. exact Hq.
Qed.

(** Update never answers 400 or 404, whatever the body and whether or not
    a row has the id; and its acknowledgment is the message alone, without
    the number of rows changed. *)
Theorem update_acknowledgment (table id : string) (fields : Obj) (w : World) :
  let resp := fst (serve (Update table id fields) w) in
  status resp <> 400
  /\ status resp <> 404
  /\ (status resp = 200 ->
      body resp = JObj [("message", JStr "Cadastro atualizado com sucesso!")]).
Proof.
  assert (Herr : forall e, status (errorHandler e) <> 400
                           /\ status (errorHandler e) <> 404
                           /\ status (errorHandler e) <> 200).
  { intros e. destruct (errorHandler_shape e) as ([Hs|Hs] & _);
      rewrite Hs; repeat split; discriminate. }
  cbv zeta. unfold Server.serve. cbn [Server.handler].
  destruct (checkDatabaseConnection w) as [[e|] w1].
  - cbn [fst]. destruct (Herr e) as (H1 & H2 & H3). repeat split; auto.
    intros H. contradiction.
  - unfold update.
    destruct (0 <? length fields)%nat; rewrite try_query_eq;
      destruct (query _ _ _ w1) as [[rows|e] w2].
    + cbn. repeat split; discriminate.
    + unfold next_localized. destruct (includes _ _); cbn [fst];
        match goal with
        | |- context [errorHandler ?x] =>
            destruct (Herr x) as (H1 & H2 & H3); repeat split; auto;
            intros H; contradiction
        end.
    + cbn. repeat split; discriminate.
    + unfold next_localized. destruct (includes _ _); cbn [fst];
        match goal with
        | |- context [errorHandler ?x] =>
            destruct (Herr x) as (H1 & H2 & H3); repeat split; auto;
            intros H; contradiction
        end.
Qed.

(** *** Statements and their parameters *)

Lemma count_append (c : ascii) (a b : string) :
  count c (a ++ b) = (count c a + count c b)%nat.
Proof.
  induction a as [|d a IH]; [reflexivity|].
  change (String d a ++ b) with (String d (a ++ b)).
  cbn [count]. rewrite IH. destruct (Ascii.eqb c d); reflexivity.
Qed.

Lemma count_join (xs : list string) :
  count "?" (join xs) = list_sum (map (count "?") xs).
Proof.
  induction xs as [|x xs IH]; [reflexivity|].
  destruct xs as [|y xs].
  - cbn [join map list_sum fold_right]. lia.
  - change (join (x :: y :: xs)) with (x ++ "," ++ join (y :: xs)).
    rewrite !count_append, IH. cbn [map list_sum fold_right]. cbn [count Ascii.eqb Bool.eqb].
    lia.
Qed.

Lemma count_assignments (fields : Obj) :
  Forall (fun s => count "?" s = O) (map fst fields) ->
  list_sum (map (count "?") (map (fun kv => fst kv ++ " = ?") fields)) = length fields.
Proof.
  induction fields as [|kv fields IH]; intros H; [reflexivity|].
  cbn [map] in H. apply Forall_cons_iff in H as [Hk Hrest].
  cbn [map list_sum fold_right length]. fold (list_sum (map (count "?") (map (fun kv : string * Val => fst kv ++ " = ?") fields))). rewrite count_append, Hk, (IH Hrest). reflexivity.
Qed.

Lemma count_names (names : list string) :
  Forall (fun s => count "?" s = O) names ->
  list_sum (map (count "?") names) = O.
Proof.
  induction 1 as [|x xs Hx _ IH]; [reflexivity|].
  cbn [map list_sum fold_right]. fold (list_sum (map (count "?") xs)). rewrite Hx, IH. reflexivity.
Qed.

Lemma count_marks (fields : Obj) :
  list_sum (map (count "?") (map (fun _ : string * Val => "?") fields)) = length fields.
Proof.
  induction fields as [|kv fields IH]; [reflexivity|].
  cbn [map list_sum fold_right length]. fold (list_sum (map (count "?") (map (fun _ : string * Val => "?") fields))). rewrite IH. reflexivity.
Qed.

Lemma try_query_snd (sql : string) (ps : list Val)
    (ok : list Row -> Handler Store) (failed : Err -> Result) (w : World) :
  (forall rows w', snd (ok rows w') = w') ->
  snd (try_query sql ps ok failed w) = snd (query sql ps (timeout config) w).
Proof.
  intros Hok. rewrite try_query_eq.
  destruct (query sql ps (timeout config) w) as [[rows|e] w']; cbn [snd]; auto.
Qed.

(** The well-formed binding of a statement: one parameter per
    placeholder. *)
Local Abbreviation bound s := (count "?" (sql s) = length (params s)) (only parsing).

Lemma handler_issued (r : Request) (hd : Handler Store) (w : World) (h : Handle) :
  handler r = Some hd ->
  db w = Some h ->
  exists l : list Stmt,
    issued (snd (hd w)) = (issued w ++ map (pair h) l)%list
    /\ ((length l <= 1)%nat \/ (exists table id, r = Delete table id) /\ length l = 2%nat)
    /\ (Forall (fun s => count "?" s = O) (interpolated r) -> Forall (fun s => bound s) l).
Proof.
  intros Hh Hdb.
  assert (Hone : forall q ps (w0 : World), db w0 = Some h ->
            db (snd (query q ps (timeout config) w0)) = Some h
            /\ issued (snd (query q ps (timeout config) w0))
               = (issued w0 ++ map (pair h) [{| sql := q; params := ps |}])%list).
  { intros q ps w0 H0.
    destruct (query_issues q ps (timeout config) w0 h H0) as (H1 & _ & H3 & _).
    split; [congruence | exact H3]. }
  assert (Hnone : exists l : list Stmt,
            issued w = (issued w ++ map (pair h) l)%list
            /\ ((length l <= 1)%nat
                \/ (exists table id, r = Delete table id) /\ length l = 2%nat)
            /\ (Forall (fun s => count "?" s = O) (interpolated r)
                -> Forall (fun s => bound s) l)).
  { exists []. cbn. rewrite app_nil_r. repeat split; auto. }
  destruct r as [table|table id|table page limit|table id fields|table id
                |table fields|fields|table fields|];
    try discriminate Hh; injection Hh as <-; cbn [interpolated] in *.
  - unfold read_table. rewrite try_query_world.
    destruct (Hone ("SELECT * FROM " ++ table ++ " LIMIT 10") [] w Hdb) as [_ Hiss].
    eexists. split; [exact Hiss|]. split; [left; cbn; lia|].
    intros Hq. apply Forall_cons_iff in Hq as [Ht _].
    repeat constructor. cbn [sql params length].
    rewrite !count_append, Ht. reflexivity.
  - unfold read_by_id. destruct (falsy (JStr table) && falsy (JStr id)); [exact Hnone|].
    rewrite try_query_snd by (intros [|? ?] ?; reflexivity).
    destruct (Hone ("SELECT * FROM " ++ table ++ " WHERE id = ?") [JStr id] w Hdb)
      as [_ Hiss].
    eexists. split; [exact Hiss|]. split; [left; cbn; lia|].
    intros Hq. apply Forall_cons_iff in Hq as [Ht _].
    repeat constructor. cbn [sql params length].
    rewrite !count_append, Ht. reflexivity.
  - unfold pagination.
    destruct (falsy (query_param page) || falsy (query_param limit)); [exact Hnone|].
    rewrite try_query_snd by (intros [|? ?] ?; reflexivity).
    match goal with
    | |- context [query ?q ?ps _ w] => destruct (Hone q ps w Hdb) as [_ Hiss]
    end.
    eexists. split; [exact Hiss|]. split; [left; cbn; lia|].
    intros Hq. apply Forall_cons_iff in Hq as [Ht _].
    repeat constructor. cbn [sql params length].
    rewrite !count_append, Ht. reflexivity.
  - unfold update.
    assert (Hsame : (if (0 <? length fields)%nat
                     then (map (fun kv : string * Val => fst kv ++ " = ?") fields,
                           map snd fields)
                     else ([], []))
                    = (map (fun kv : string * Val => fst kv ++ " = ?") fields,
                       map snd fields))
      by (destruct fields; reflexivity).
    rewrite Hsame, try_query_world.
    match goal with
    | |- context [query ?q ?ps _ w] => destruct (Hone q ps w Hdb) as [_ Hiss]
    end.
    eexists. split; [exact Hiss|]. split; [left; cbn; lia|].
    intros Hq. apply Forall_cons_iff in Hq as [Ht Hk].
    repeat constructor. cbn [sql params].
    rewrite !count_append, Ht, count_join, (count_assignments _ Hk).
    rewrite length_app, length_map. cbn. lia.
  - unfold delete. rewrite try_query_eq.
    destruct (Hone ("SELECT * FROM " ++ table ++ " WHERE id = ?") [JStr id] w Hdb)
      as [Hdb1 Hiss1].
    assert (Hb1 : count "?" table = O ->
                  bound {| sql := "SELECT * FROM " ++ table ++ " WHERE id = ?";
                           params := [JStr id] |}).
    { intros Ht. cbn [sql params length]. rewrite !count_append, Ht. reflexivity. }
    assert (Hb2 : count "?" table = O ->
                  bound {| sql := "DELETE FROM " ++ table ++ " WHERE id = ?";
                           params := [JStr id] |}).
    { intros Ht. cbn [sql params length]. rewrite !count_append, Ht. reflexivity. }
    destruct (query _ _ (timeout config) w) as [[[|row rows]|e] w1]; cbn [snd] in *.
    + eexists. split; [exact Hiss1|]. split; [left; cbn; lia|].
      intros Hq. apply Forall_cons_iff in Hq as [Ht _]. repeat constructor. auto.
    + rewrite try_query_world.
      destruct (Hone ("DELETE FROM " ++ table ++ " WHERE id = ?") [JStr id] w1 Hdb1)
        as [_ Hiss2].
      exists [{| sql := "SELECT * FROM " ++ table ++ " WHERE id = ?"; params := [JStr id] |};
              {| sql := "DELETE FROM " ++ table ++ " WHERE id = ?"; params := [JStr id] |}].
      split; [rewrite Hiss2, Hiss1, <- app_assoc; reflexivity|].
      split; [right; split; [eauto | reflexivity]|].
      intros Hq. apply Forall_cons_iff in Hq as [Ht _]. repeat constructor; auto.
    + eexists. split; [exact Hiss1|]. split; [left; cbn; lia|].
      intros Hq. apply Forall_cons_iff in Hq as [Ht _]. repeat constructor. auto.
  - unfold create.
    assert (Hsame : (if (0 <? length fields)%nat
                     then (map fst fields, map snd fields,
                           map (fun _ : string * Val => "?") fields)
                     else ([], [], []))
                    = (map fst fields, map snd fields,
                       map (fun _ : string * Val => "?") fields))
      by (destruct fields; reflexivity).
    rewrite Hsame, try_query_world.
    match goal with
    | |- context [query ?q ?ps _ w] => destruct (Hone q ps w Hdb) as [_ Hiss]
    end.
    eexists. split; [exact Hiss|]. split; [left; cbn; lia|].
    intros Hq. apply Forall_cons_iff in Hq as [Ht Hk].
    repeat constructor. cbn [sql params].
    rewrite !count_append, Ht, !count_join, (count_names _ Hk), count_marks.
    rewrite length_map. cbn. lia.
  - unfold add_table.
    destruct (falsy (get "tableName" fields) || falsy (get "columns" fields));
      [exact Hnone|].
    rewrite try_query_world.
    match goal with
    | |- context [query ?q ?ps _ w] => destruct (Hone q ps w Hdb) as [_ Hiss]
    end.
    eexists. split; [exact Hiss|]. split; [left; cbn; lia|].
    intros Hq. apply Forall_cons_iff in Hq as [Ht Hq].
    apply Forall_cons_iff in Hq as [Hcols _].
    repeat constructor. cbn [sql params length].
    rewrite !count_append, Ht, Hcols. reflexivity.
  - unfold add_column. rewrite try_query_world.
    match goal with
    | |- context [query ?q ?ps _ w] => destruct (Hone q ps w Hdb) as [_ Hiss]
    end.
    eexists. split; [exact Hiss|]. split; [left; cbn; lia|].
    intros Hq. apply Forall_cons_iff in Hq as [Ht Hq].
    apply Forall_cons_iff in Hq as [Hname Hq].
    apply Forall_cons_iff in Hq as [Htype _].
    repeat constructor. cbn [sql params length].
    rewrite !count_append, Ht, Hname, Htype. reflexivity.
Qed.

Lemma serve_issued (r : Request) (w : World) :
  exists l : list (Handle * Stmt),
    issued (snd (serve r w)) = (issued w ++ l)%list
    /\ ((length l <= 1)%nat \/ (exists table id, r = Delete table id) /\ length l = 2%nat)
    /\ (Forall (fun s => count "?" s = O) (interpolated r) ->
        Forall (fun e => bound (snd e)) l).
Proof.
  unfold Server.serve. destruct (handler r) as [hd|] eqn:Hh.
  - destruct (check_world w) as (Hiss & _ & h & Hdb).
    destruct (checkDatabaseConnection w) as [[e|] w1]; cbn [snd] in *.
    + exists []. rewrite app_nil_r. split; [auto|]. split; [left; cbn; lia | intros _; constructor].
    + destruct (handler_issued r hd w1 h Hh Hdb) as (l & H1 & H2 & H3).
      exists (map (pair h) l).
      assert (Hw : snd (let '(res, w2) := hd w1 in
                        match res with
                        | Send resp => (resp, w2)
                        | Next e => (errorHandler e, w2)
                        end) = snd (hd w1))
        by (destruct (hd w1) as [[resp|e] w2]; reflexivity).
      rewrite Hw, H1, Hiss. rewrite length_map. repeat split; auto.
      intros Hq. apply Forall_map. exact (H3 Hq).
  - exists []. rewrite app_nil_r. split; [auto|]. split; [left; cbn; lia | intros _; constructor].
Qed.

(** No request hands more than two statements to the driver, and only
    Delete hands two; what was issued before stays in place. *)
Theorem at_most_two_statements (r : Request) (w : World) :
  exists l : list (Handle * Stmt),
    issued (snd (serve r w)) = (issued w ++ l)%list
    /\ (length l <= 2)%nat
    /\ ((forall table id, r <> Delete table id) -> (length l <= 1)%nat).
Proof.
  destruct (serve_issued r w) as (l & H1 & H2 & _).
  exists l. split; [exact H1|]. split.
  - destruct H2 as [H2 | [_ H2]]; lia.
  - intros Hr. destruct H2 as [H2 | [(table & id & ->) _]]; [exact H2|].
    now elim (Hr table id).
Qed.

(** Every statement a request issues has exactly one parameter per [?]
    placeholder, provided the texts spliced into it (table, property names,
    DDL fragments) contain no [?] themselves. *)
Theorem placeholders_match_parameters (r : Request) (w : World) :
  Forall (fun s => count "?" s = O) (interpolated r) ->
  exists l : list (Handle * Stmt),
    issued (snd (serve r w)) = (issued w ++ l)%list
    /\ Forall (fun e => count "?" (sql (snd e)) = length (params (snd e))) l.
Proof.
  intros Hq. destruct (serve_issued r w) as (l & H1 & _ & H3).
  exists l. split; [exact H1 | exact (H3 Hq)].
Qed.

(** *** The connection, the timeout and the error handler, end to end *)

(** When the open of the database file fails, the request that triggered
    it is answered by the error handler with the fixed connection message,
    whatever its route and parameters: no validation runs, no statement is
    issued, the driver's own message is dropped, and the dead handle stays
    in [dbManager.db]. *)
Theorem connection_failure_answers_every_route (r : Request) (w : World) (m : string) :
  needs_database r = true ->
  db w = None ->
  db_open (opened w) (dbPath config) = Some m ->
  serve r w
  = (errorHandler {| message := "Falha na conexão com o banco de dados" |},
     {| db := Some {| established := false |}; store := store w;
        opened := S (opened w); issued := issued w |}).
Proof.
  intros Hr Hdb Hopen.
  destruct r; try discriminate Hr;
    unfold Server.serve, Server.checkDatabaseConnection, Server.connect;
    cbn [Server.handler]; rewrite Hdb, Hopen; reflexivity.
Qed.

Lemma serve_connects (r : Request) (w : World) :
  needs_database r = true -> exists h, db (snd (serve r w)) = Some h.
Proof.
  intros Hr. unfold Server.serve.
  destruct (handler r) as [hd|] eqn:Hh; [|destruct r; discriminate].
  destruct (check_world w) as (_ & _ & h & Hdb).
  destruct (checkDatabaseConnection w) as [[e|] w1]; cbn [snd] in *; [eauto|].
  destruct (handler_world r hd w1 h Hh Hdb) as (H1 & _).
  destruct (hd w1) as [[resp|e] w2]; cbn [snd] in *; eauto.
Qed.

Lemma run_opened (rs : list Request) (w : World) :
  one_handle w ->
  opened (snd (run rs w))
  = match db w with
    | Some _ => 1%nat
    | None => if existsb needs_database rs then 1%nat else O
    end.
Proof.
  revert w. induction rs as [|r rs IH]; intros w Hinv.
  - cbn. unfold Server.one_handle in Hinv.
    destruct (db w); [apply Hinv | apply Hinv].
  - cbn [Server.run existsb].
    pose proof (serve_one_handle r w Hinv) as H1.
    pose proof (serve_connects r w) as Hconn.
    assert (Hun : needs_database r = false -> serve r w = (not_found, w))
      by (destruct r; try discriminate; reflexivity).
    destruct (serve r w) as [resp w1]. cbn [snd] in *.
    specialize (IH w1 H1).
    destruct (run rs w1) as [resps w2]. cbn [snd] in *. rewrite IH.
    destruct (needs_database r).
    + destruct (Hconn eq_refl) as [h ->].
      unfold Server.one_handle in Hinv. destruct (db w); reflexivity.
    + injection (Hun eq_refl) as _ ->. reflexivity.
Qed.

(** The database is opened lazily and once: after any sequence of requests
    from process start, no handle was constructed if every request fell
    through to the fallback route, and exactly one otherwise. *)
Theorem lazy_single_open (rs : list Request) (st : Store) :
  opened (snd (run rs (boot Store st)))
  = if existsb needs_database rs then 1%nat else O.
Proof.
  apply (run_opened rs (boot Store st)). cbn. auto.
Qed.

(** Every statement issued since process start ran on the handle of that
    one open, established or not: a failed open is never retried and a
    successful one is never replaced. *)
Theorem statements_share_open_outcome (rs : list Request) (st : Store) :
  Forall (fun e => established (fst e)
                   = match db_open O (dbPath config) with
                     | None => true
                     | Some _ => false
                     end)
         (issued (snd (run rs (boot Store st)))).
Proof.
  pose proof (run_one_handle rs (boot Store st)) as H.
  unfold Server.one_handle in H at 2.
  destruct (db (snd (run rs (boot Store st)))) as [h|].
  - destruct H as (_ & He & Hall); [cbn; auto|].
    eapply Forall_impl; [|exact Hall]. intros e ->. exact He.
  - destruct H as (_ & ->); [cbn; auto|]. constructor.
Qed.

(** At the end of the process, [close] is called on exactly the handles
    that were opened: none if no request needed the database, otherwise
    the one handle every statement ran on. *)
Theorem shutdown_closes_the_handle (rs : list Request) (st : Store) (ev : ProcessEvent) :
  let w := snd (run rs (boot Store st)) in
  length (closed (on_event ev w)) = opened w
  /\ Forall (fun e => closed (on_event ev w) = [fst e]) (issued w)
  /\ (closed (on_event ev w) = [] <-> existsb needs_database rs = false).
Proof.
  cbv zeta.
  pose proof (run_one_handle rs (boot Store st)) as H.
  assert (Hop : opened (snd (run rs (boot Store st)))
                = if existsb needs_database rs then 1%nat else O)
    by (apply (run_opened rs (boot Store st)); cbn; auto).
  assert (Hclosed : closed (on_event ev (snd (run rs (boot Store st))))
                    = close Store (snd (run rs (boot Store st))))
    by (destruct ev; reflexivity).
  rewrite Hclosed. unfold Server.close, Server.one_handle in *.
  destruct (db (snd (run rs (boot Store st)))) as [h|].
  - destruct H as (H1 & _ & Hall); [cbn; auto|].
    split; [now rewrite H1|]. split.
    + eapply Forall_impl; [|exact Hall]. intros e ->. reflexivity.
    + rewrite H1 in Hop. destruct (existsb needs_database rs); split; discriminate.
  - destruct H as (H1 & ->); [cbn; auto|].
    split; [now rewrite H1|]. split; [constructor|].
    rewrite H1 in Hop. destruct (existsb needs_database rs); [discriminate|].
    split; reflexivity.
Qed.

(** Outside development mode a 500 response is the same fixed body for
    every request and every error: nothing of the error reaches the
    caller. *)
Theorem production_hides_detail (r : Request) (w : World) :
  nodeEnv config <> "development" ->
  status (fst (serve r w)) = 500 ->
  body (fst (serve r w))
  = JObj [("status", JStr "error"); ("message", JStr "Erro interno do servidor")].
Proof.
  intros Hprod.
  assert (Herr : forall e, status (errorHandler e) = 500 ->
            body (errorHandler e)
            = JObj [("status", JStr "error"); ("message", JStr "Erro interno do servidor")]).
  { intros e. unfold Server.errorHandler.
    destruct (String.eqb (message e) "DATABASE_TIMEOUT"); [discriminate|].
    destruct (String.eqb (nodeEnv config) "development") eqn:Hdev.
    - apply String.eqb_eq in Hdev. contradiction.
    - reflexivity. }
  unfold Server.serve. destruct (handler r) as [hd|] eqn:Hh.
  - destruct (checkDatabaseConnection w) as [[e|] w1]; [exact (Herr e)|].
    destruct (hd w1) as [[resp|e] w2] eqn:Hhd; [|exact (Herr e)].
    cbn [fst]. intros H500.
    assert (Hsent : sent_shape r resp)
      by (apply (handler_shape r hd w1); [exact Hh | now rewrite Hhd]).
    destruct Hsent as ([Hs | [Hs | Hs]] & _); rewrite Hs in H500; discriminate.
  - destruct r; discriminate.
Qed.

(** A statement that outlives the deadline is abandoned, not undone: the
    caller of Create gets 408 while the database is left as the INSERT
    leaves it. *)
Theorem timeout_still_takes_effect (table : string) (fields : Obj)
    (w w1 : World) (h : Handle) (c : Completion) (st : Store) :
  checkDatabaseConnection w = (None, w1) ->
  db w1 = Some h ->
  db_all h {| sql := "INSERT INTO " ++ table ++ " (" ++ join (map fst fields)
                      ++ ") VALUES (" ++ join (map (fun _ => "?") fields) ++ ")";
              params := map snd fields |} (store w1) = (c, st) ->
  deadline < after c ->
  fst (serve (Create table fields) w) = errorHandler {| message := "DATABASE_TIMEOUT" |}
  /\ status (fst (serve (Create table fields) w)) = 408
  /\ store (snd (serve (Create table fields) w)) = st.
Proof.
  intros Hc Hdb Hall Hlt.
  assert (Hserve : serve (Create table fields) w
                   = (errorHandler {| message := "DATABASE_TIMEOUT" |},
                      after_call w1 h
                        {| sql := "INSERT INTO " ++ table ++ " (" ++ join (map fst fields)
                                   ++ ") VALUES ("
                                   ++ join (map (fun _ => "?") fields) ++ ")";
                           params := map snd fields |} st)).
  { erewrite serve_passed; [|reflexivity|exact Hc].
    unfold create.
    destruct fields as [|kv fields'].
    - cbn [length Nat.ltb Nat.leb] in *. cbn [map] in Hall.
      rewrite try_query_eq, (query_timeout _ _ _ _ _ _ _ Hdb Hall Hlt). reflexivity.
    - cbn [length Nat.ltb Nat.leb].
      rewrite try_query_eq, (query_timeout _ _ _ _ _ _ _ Hdb Hall Hlt). reflexivity. }
  rewrite Hserve. cbn [fst snd]. repeat split; reflexivity.
Qed.

Lemma query_rejected (sql : string) (ps : list Val) (w : World) (h : Handle) (m : string) :
  db w = Some h ->
  (forall s st, after (fst (db_all h s st)) < deadline
                /\ reply (fst (db_all h s st)) = Failure m) ->
  fst (query sql ps (timeout config) w) = Rejected {| message := m |}.
Proof.
  intros Hdb Hfail.
  destruct (db_all h {| sql := sql; params := ps |} (store w)) as [c st] eqn:Hall.
  destruct (Hfail {| sql := sql; params := ps |} (store w)) as [Hlt Hrep].
  rewrite Hall in Hlt, Hrep. cbn [fst] in Hlt, Hrep.
  now rewrite (query_failure _ _ _ _ _ _ _ _ Hdb Hall Hlt Hrep).
Qed.

Ltac rejected Hdb Hfail :=
  rewrite try_query_eq;
  match goal with
  | |- context [query ?q ?ps (timeout config) ?w] =>
      let H := fresh "Hq" in
      pose proof (query_rejected q ps w _ _ Hdb Hfail) as H;
      destruct (query q ps (timeout config) w) as [[?|?] ?];
      cbn [fst] in H; [discriminate H | injection H as ->]
  end.

Lemma missing_table_after_check (r : Request) (w w1 : World) (h : Handle)
    (name : string) :
  checkDatabaseConnection w = (None, w1) ->
  db w1 = Some h ->
  (forall s st, after (fst (db_all h s st)) < deadline
                /\ reply (fst (db_all h s st))
                   = Failure ("SQLITE_ERROR: no such table: " ++ name)) ->
  needs_database r = true ->
  (forall table fields, r <> Create table fields) ->
  (forall fields, r <> AddTable fields) ->
  fst (serve r w)
  = errorHandler {| message := "SQLITE_ERROR: Não existe a tabela: " ++ name |}
  \/ status (fst (serve r w)) = 400.
Proof.
  intros Hc Hdb Hfail Hu Hcr Ha.
  destruct r as [table|table id|table page limit|table id fields|table id
                |table fields|fields|table fields|];
    try discriminate Hu; try (now elim (Hcr table fields)); try (now elim (Ha fields));
    (erewrite serve_passed; [|reflexivity|exact Hc]); cbn [fst].
  - unfold read_table. rejected Hdb Hfail. now left.
  - unfold read_by_id. destruct (falsy (JStr table) && falsy (JStr id)).
    + now right.
    + rejected Hdb Hfail. now left.
  - unfold pagination.
    destruct (falsy (query_param page) || falsy (query_param limit)).
    + now right.
    + rejected Hdb Hfail. now left.
  - unfold update. destruct (0 <? length fields)%nat; rejected Hdb Hfail; now left.
  - unfold delete. rejected Hdb Hfail. now left.
  - unfold add_column. rejected Hdb Hfail. now left.
Qed.

(** List answers with every row the driver returned, in the driver's
    order, under [data]: the limit of ten is the statement's, the handler
    adds none of its own. *)
Theorem read_table_rows (table : string) (w w1 : World) (h : Handle)
    (c : Completion) (st : Store) (rows : list Row) :
  checkDatabaseConnection w = (None, w1) ->
  db w1 = Some h ->
  db_all h {| sql := "SELECT * FROM " ++ table ++ " LIMIT 10"; params := [] |} (store w1)
  = (c, st) ->
  after c < deadline ->
  reply c = Rows rows ->
  forallb (fun row => plain (JObj row)) rows = true ->
  serve (ReadTable table) w
  = ({| status := 200;
        body := JObj [("status", JStr "success"); ("data", JArr (map JObj rows))] |},
     after_call w1 h {| sql := "SELECT * FROM " ++ table ++ " LIMIT 10"; params := [] |} st).
Proof.
  intros Hc Hdb Hall Hlt Hrep Hplain.
  erewrite serve_passed; [|reflexivity|exact Hc].
  unfold read_table. rewrite try_query_eq.
  rewrite (query_rows _ _ _ _ _ _ _ _ Hdb Hall Hlt Hrep).
  cbn [fst snd done res_json]. f_equal. f_equal.
  apply json_plain. cbn [plain forallb snd andb].
  unfold rows_val. cbn [plain].
  assert (Hrows : forallb plain (map JObj rows) = true).
  { clear - Hplain. induction rows as [|row rows IH]; [reflexivity|].
    cbn [forallb map] in *. apply andb_prop in Hplain as [H1 H2].
    now rewrite H1, (IH H2). }
  rewrite Hrows. reflexivity.
Qed.

Lemma driver_failure_after_check (r : Request) (w w1 : World) (h : Handle)
    (m : string) :
  checkDatabaseConnection w = (None, w1) ->
  db w1 = Some h ->
  (forall s st, after (fst (db_all h s st)) < deadline
                /\ reply (fst (db_all h s st)) = Failure m) ->
  includes "no such table" m = false ->
  includes "UNIQUE constraint failed" m = false ->
  needs_database r = true ->
  fst (serve r w)
  = errorHandler {| message := match r with
                               | AddTable _ => "Erro ao criar a tabela: " ++ m
                               | _ => m
                               end |}
  \/ status (fst (serve r w)) = 400.
Proof.
  intros Hc Hdb Hfail Hno Huniq Hu.
  destruct r as [table|table id|table page limit|table id fields|table id
                |table fields|fields|table fields|];
    try discriminate Hu;
    (erewrite serve_passed; [|reflexivity|exact Hc]); cbn [fst].
  - unfold read_table. rejected Hdb Hfail.
    unfold next_localized. cbn [message]. rewrite Hno. now left.
  - unfold read_by_id. destruct (falsy (JStr table) && falsy (JStr id)).
    + now right.
    + rejected Hdb Hfail. unfold next_localized. cbn [message]. rewrite Hno. now left.
  - unfold pagination.
    destruct (falsy (query_param page) || falsy (query_param limit)).
    + now right.
    + rejected Hdb Hfail. unfold next_localized. cbn [message]. rewrite Hno. now left.
  - unfold update. destruct (0 <? length fields)%nat; rejected Hdb Hfail;
      unfold next_localized; cbn [message]; rewrite Hno; now left.
  - unfold delete. rejected Hdb Hfail.
    unfold next_localized. cbn [message]. rewrite Hno. now left.
  - unfold create. destruct (0 <? length fields)%nat; rejected Hdb Hfail;
      cbn [message]; rewrite Huniq; now left.
  - unfold add_table.
    destruct (falsy (get "tableName" fields) || falsy (get "columns" fields)).
    + now right.
    + rejected Hdb Hfail. now left.
  - unfold add_column. rejected Hdb Hfail.
    unfold next_localized. cbn [message]. rewrite Hno. now left.
Qed.

(** The three properties below are about requests whose handler gets as
    far as its [try] block: the body values it splices convert to text. *)




End Properties.

(** ** The properties on the concrete installation *)

Lemma read_by_id_first_row_witness :
  fst (Demo.serve 5 Demo.opens_fine (ReadById "pets" "7") Demo.boot_pets)
  = {| status := 200; body := JObj [("id", JNum 7); ("name", JStr "Rex")] |}.
Proof.
  refine (proj1 (read_by_id_first_row Sim.Store Demo.config Demo.opens_fine (Sim.db_all 5)
           true Demo.stack_of "pets" "7" Demo.boot_pets (Demo.connected Demo.pets) Demo.live
           {| after := 5;
              reply := Rows [[("id", JNum 7); ("name", JStr "Rex")];
                             [("id", JNum 7); ("name", JStr "Tom")]] |}
           Demo.pets
           [("id", JNum 7); ("name", JStr "Rex")]
           [("id", JNum 7); ("name", JStr "Tom")] [] _ _ _ _ _ _)).
  - discriminate.
  - reflexivity.
  - reflexivity.
  - vm_compute. reflexivity.
  - vm_compute. reflexivity.
  - reflexivity.
Defined.

Lemma delete_missing_row_not_found_witness :
  Demo.serve 5 Demo.opens_fine (Delete "users" "99") Demo.boot
  = ({| status := 404;
        body := JObj [("message", JStr "O id '99' não encontrado na tabela 'users'.")] |},
     {| db := Some Demo.live; store := Demo.users25; opened := 1;
        issued := [(Demo.live, {| sql := "SELECT * FROM users WHERE id = ?";
                                  params := [JStr "99"] |})] |}).
Proof.
  destruct (delete_missing_row_not_found Sim.Store Demo.config Demo.opens_fine
              (Sim.db_all 5) true Demo.stack_of "users" "99" Demo.boot
              (Demo.connected Demo.users25) Demo.live eq_refl eq_refl) as [_ H].
  apply (H {| after := 5; reply := Rows [] |}).
  - vm_compute. reflexivity.
  - vm_compute. reflexivity.
  - reflexivity.
Defined.






Lemma create_forwards_raw_no_such_table_witness :
  fst (Demo.serve 5 Demo.opens_fine (Create "nope" [("first", JStr "Ana")]) Demo.boot)
  = {| status := 500;
       body := JObj [("status", JStr "error");
                     ("message", JStr "Erro interno do servidor");
                     ("detail", JStr "SQLITE_ERROR: no such table: nope");
                     ("stack", JStr "Error: SQLITE_ERROR: no such table: nope")] |}.
Proof.
  apply (create_forwards_raw_no_such_table Sim.Store Demo.config Demo.opens_fine
           (Sim.db_all 5) true Demo.stack_of "nope" [("first", JStr "Ana")] Demo.boot
           (Demo.connected Demo.users25) Demo.live
           {| after := 5; reply := Failure "SQLITE_ERROR: no such table: nope" |}
           Demo.users25 "SQLITE_ERROR: no such table: nope").
  - reflexivity.
  - reflexivity.
  - vm_compute. reflexivity.
  - vm_compute. reflexivity.
  - reflexivity.
  - vm_compute. reflexivity.
  - vm_compute. reflexivity.
Defined.

Lemma update_empty_body_reaches_driver_witness :
  issued (snd (Demo.serve 5 Demo.opens_fine (Update "users" "1" []) Demo.boot))
  = [(Demo.live, {| sql := "UPDATE users SET  WHERE id = ?"; params := [JStr "1"] |})]
  /\ status (fst (Demo.serve 5 Demo.opens_fine (Update "users" "1" []) Demo.boot)) <> 400.
Proof.
  apply (update_empty_body_reaches_driver Sim.Store Demo.config Demo.opens_fine
           (Sim.db_all 5) true Demo.stack_of "users" "1" Demo.boot
           (Demo.connected Demo.users25) Demo.live).
  - reflexivity.
  - reflexivity.
Defined.

Lemma create_acknowledgment_without_id_witness :
  body (fst (Demo.serve 5 Demo.opens_fine (Create "users" [("first", JStr "Ana")]) Demo.boot))
  = JObj [("message", JStr "Cadastro criado com sucesso!")]
  /\ field "id"
       (body (fst (Demo.serve 5 Demo.opens_fine
                     (Create "users" [("first", JStr "Ana")]) Demo.boot)))
     = JUndefined.
Proof.
  apply (create_acknowledgment_without_id Sim.Store Demo.config Demo.opens_fine
           (Sim.db_all 5) true Demo.stack_of "users" [("first", JStr "Ana")] Demo.boot).
  vm_compute. reflexivity.
Defined.

Lemma add_table_timeout_is_500_witness :
  status (fst (Demo.serve 200000 Demo.opens_fine
                 (AddTable [("tableName", JStr "t"); ("columns", JStr "id INTEGER")])
                 Demo.boot)) = 500
  /\ fst (Demo.serve 200000 Demo.opens_fine (ReadTable "users") Demo.boot)
     = {| status := 408;
          body := JObj [("status", JStr "error");
                        ("message", JStr "A consulta excedeu o tempo limite de 3 minutos")] |}.
Proof.
  split.
  - apply (add_table_timeout_is_500 Sim.Store Demo.config Demo.opens_fine
             (Sim.db_all 200000) true Demo.stack_of
             [("tableName", JStr "t"); ("columns", JStr "id INTEGER")] Demo.boot
             (Demo.connected Demo.users25) Demo.live
             {| after := 200000; reply := Rows [] |}
             (Demo.users25 ++ [("t", [])])%list).
    + reflexivity.
    + reflexivity.
    + reflexivity.
    + vm_compute. reflexivity.
    + vm_compute. reflexivity.
  - vm_compute. reflexivity.
Defined.

Lemma query_on_failed_connection_witness :
  issued (snd (Demo.run 5 Demo.cannot_open [ReadTable "users"; ReadTable "users"] Demo.boot))
  = [({| established := false |}, {| sql := "SELECT * FROM users LIMIT 10"; params := [] |})]
  /\ opened (snd (Demo.run 5 Demo.cannot_open [ReadTable "users"; ReadTable "users"] Demo.boot))
     = 1%nat.
Proof.
  apply (query_on_failed_connection Sim.Store Demo.config Demo.cannot_open
           (Sim.db_all 5) true Demo.stack_of "users" Demo.users25
           "SQLITE_CANTOPEN: unable to open database file").
  reflexivity.
Defined.

(** *** Further properties on the concrete installation *)

Lemma read_by_id_missing_row_witness :
  fst (Demo.serve 5 Demo.opens_fine (ReadById "pets" "99") Demo.boot_pets)
  = {| status := 404; body := JObj [("message", JStr "User not found")] |}.
Proof.
  unfold Demo.serve.
  rewrite (read_by_id_missing_row Sim.Store Demo.config Demo.opens_fine (Sim.db_all 5)
             true Demo.stack_of "pets" "99" Demo.boot_pets (Demo.connected Demo.pets)
             Demo.live {| after := 5; reply := Rows [] |} Demo.pets).
  - reflexivity.
  - discriminate.
  - reflexivity.
  - reflexivity.
  - vm_compute. reflexivity.
  - vm_compute. reflexivity.
  - reflexivity.
Defined.

Lemma pagination_past_the_end_witness :
  fst (Demo.serve 5 Demo.opens_fine (Pagination "users" (Some "4") (Some "10")) Demo.boot)
  = {| status := 200;
       body := JObj [("message", JStr "A tabela 'users' está vazia.")] |}
  /\ Sim.table_rows "users" Demo.users25 = Some (map Demo.user (seq 1 25)).
Proof.
  split; [|reflexivity].
  apply (pagination_past_the_end Sim.Store Demo.config Demo.opens_fine (Sim.db_all 5)
           true Demo.stack_of "users" "4" "1" "" "0" Demo.boot
           (Demo.connected Demo.users25) Demo.live
           {| after := 5; reply := Rows [] |} Demo.users25).
  - reflexivity.
  - reflexivity.
  - vm_compute. reflexivity.
  - vm_compute. reflexivity.
  - reflexivity.
Defined.

Lemma delete_existing_row_witness :
  fst (Demo.serve 5 Demo.opens_fine (Delete "pets" "8") Demo.boot_pets)
  = {| status := 200; body := JObj [("message", JStr "ID '8' excluído com sucesso!")] |}
  /\ issued (snd (Demo.serve 5 Demo.opens_fine (Delete "pets" "8") Demo.boot_pets))
     = [(Demo.live, {| sql := "SELECT * FROM pets WHERE id = ?"; params := [JStr "8"] |});
        (Demo.live, {| sql := "DELETE FROM pets WHERE id = ?"; params := [JStr "8"] |})].
Proof.
  unfold Demo.serve.
  rewrite (delete_existing_row Sim.Store Demo.config Demo.opens_fine (Sim.db_all 5)
             true Demo.stack_of "pets" "8" Demo.boot_pets (Demo.connected Demo.pets)
             Demo.live
             {| after := 5; reply := Rows [[("id", JNum 8); ("name", JStr "Ava")]] |}
             {| after := 5; reply := Rows [] |}
             Demo.pets
             [("pets", [[("id", JNum 7); ("name", JStr "Rex")];
                        [("id", JNum 7); ("name", JStr "Tom")]])]
             [("id", JNum 8); ("name", JStr "Ava")] [] []).
  - split; reflexivity.
  - reflexivity.
  - reflexivity.
  - vm_compute. reflexivity.
  - vm_compute. reflexivity.
  - reflexivity.
  - vm_compute. reflexivity.
  - vm_compute. reflexivity.
  - reflexivity.
Defined.

Lemma create_unique_violation_witness :
  status (fst (Server.serve Sim.Store Demo.config Demo.opens_fine
                 (Demo.rejecting "SQLITE_CONSTRAINT: UNIQUE constraint failed: users.email")
                 true Demo.stack_of
                 (Create "users" [("email", JStr "ana@example.org")]) Demo.boot)) = 500
  /\ field "detail"
       (body (fst (Server.serve Sim.Store Demo.config Demo.opens_fine
                     (Demo.rejecting
                        "SQLITE_CONSTRAINT: UNIQUE constraint failed: users.email")
                     true Demo.stack_of
                     (Create "users" [("email", JStr "ana@example.org")]) Demo.boot)))
     = JStr "O email já existe".
Proof.
  destruct (create_unique_violation Sim.Store Demo.config Demo.opens_fine
              (Demo.rejecting "SQLITE_CONSTRAINT: UNIQUE constraint failed: users.email")
              true Demo.stack_of "users" [("email", JStr "ana@example.org")] Demo.boot
              (Demo.connected Demo.users25) Demo.live
              {| after := 5;
                 reply := Failure "SQLITE_CONSTRAINT: UNIQUE constraint failed: users.email" |}
              Demo.users25 "SQLITE_CONSTRAINT: UNIQUE constraint failed: users.email")
    as (_ & Hs & Hd).
  - reflexivity.
  - reflexivity.
  - reflexivity.
  - vm_compute. reflexivity.
  - reflexivity.
  - vm_compute. reflexivity.
  - split; [exact Hs | apply Hd; reflexivity].
Defined.

Lemma create_empty_body_reaches_driver_witness :
  issued (snd (Demo.serve 5 Demo.opens_fine (Create "users" []) Demo.boot))
  = [(Demo.live, {| sql := "INSERT INTO users () VALUES ()"; params := [] |})]
  /\ status (fst (Demo.serve 5 Demo.opens_fine (Create "users" []) Demo.boot)) <> 400
  /\ issued (snd (Demo.serve 5 Demo.cannot_open (Create "users" []) Demo.boot)) = [].
Proof.
  destruct (create_empty_body_reaches_driver Sim.Store Demo.config Demo.opens_fine
              (Sim.db_all 5) true Demo.stack_of "users" Demo.boot) as [H1 H2].
  destruct (create_empty_body_reaches_driver Sim.Store Demo.config Demo.cannot_open
              (Sim.db_all 5) true Demo.stack_of "users" Demo.boot) as [_ G2].
  exact (conj (H2 Demo.live eq_refl)
              (conj H1 (G2 {| established := false |} eq_refl))).
Defined.

Lemma add_table_missing_field_witness :
  fst (Demo.serve 5 Demo.opens_fine (AddTable [("tableName", JStr "t")]) Demo.boot)
  = {| status := 400;
       body := JObj [("error", JStr "Nome da tabela e colunas são obrigatórios.")] |}
  /\ issued (snd (Demo.serve 5 Demo.opens_fine (AddTable [("tableName", JStr "t")])
                    Demo.boot)) = []
  /\ status (fst (Demo.serve 5 Demo.cannot_open (AddTable [("tableName", JStr "t")])
                    Demo.boot)) = 500.
Proof.
  destruct (add_table_missing_field Sim.Store Demo.config Demo.opens_fine (Sim.db_all 5)
              true Demo.stack_of [("tableName", JStr "t")] Demo.boot eq_refl)
    as (H2 & _ & H1).
  destruct (add_table_missing_field Sim.Store Demo.config Demo.cannot_open (Sim.db_all 5)
              true Demo.stack_of [("tableName", JStr "t")] Demo.boot eq_refl)
    as (_ & _ & G1).
  exact (conj H1 (conj H2 (f_equal status G1))).
Defined.

Lemma add_column_unvalidated_witness :
  issued (snd (Demo.serve 5 Demo.opens_fine (AddColumn "users" []) Demo.boot))
  = [(Demo.live, {| sql := "ALTER TABLE users ADD COLUMN undefined undefined;";
                    params := [] |})]
  /\ status (fst (Demo.serve 5 Demo.opens_fine (AddColumn "users" []) Demo.boot)) <> 400.
Proof.
  destruct (add_column_unvalidated Sim.Store Demo.config Demo.opens_fine
              (Sim.db_all 5) true Demo.stack_of "users" [] Demo.boot eq_refl eq_refl)
    as [H1 H2].
  exact (conj (H2 Demo.live eq_refl) H1).
Defined.

Lemma placeholders_match_parameters_witness :
  exists l,
    issued (snd (Demo.serve 5 Demo.opens_fine
                   (Update "users" "1" [("first", JStr "Ana"); ("dept", JNum 2)])
                   Demo.boot)) = l
    /\ Forall (fun e => count "?" (sql (snd e)) = length (params (snd e))) l.
Proof.
  destruct (placeholders_match_parameters Sim.Store Demo.config Demo.opens_fine
              (Sim.db_all 5) true Demo.stack_of
              (Update "users" "1" [("first", JStr "Ana"); ("dept", JNum 2)]) Demo.boot)
    as (l & H1 & H2).
  - repeat constructor.
  - exists l. split; [exact H1 | exact H2].
Defined.

Lemma connection_failure_answers_every_route_witness :
  fst (Demo.serve 5 Demo.cannot_open (Pagination "users" None None) Demo.boot)
  = {| status := 500;
       body := JObj [("status", JStr "error");
                     ("message", JStr "Erro interno do servidor");
                     ("detail", JStr "Falha na conexão com o banco de dados");
                     ("stack", JStr "Error: Falha na conexão com o banco de dados")] |}.
Proof.
  unfold Demo.serve.
  rewrite (connection_failure_answers_every_route Sim.Store Demo.config Demo.cannot_open
             (Sim.db_all 5) true Demo.stack_of (Pagination "users" None None) Demo.boot
             "SQLITE_CANTOPEN: unable to open database file").
  - reflexivity.
  - reflexivity.
  - reflexivity.
  - reflexivity.
Defined.

Lemma production_hides_detail_witness :
  body (fst (Server.serve Sim.Store Demo.production Demo.opens_fine (Sim.db_all 5) true
               Demo.stack_of (Create "nope" [("first", JStr "Ana")]) Demo.boot))
  = JObj [("status", JStr "error"); ("message", JStr "Erro interno do servidor")].
Proof.
  apply (production_hides_detail Sim.Store Demo.production Demo.opens_fine (Sim.db_all 5)
           true Demo.stack_of (Create "nope" [("first", JStr "Ana")]) Demo.boot).
  - discriminate.
  - vm_compute. reflexivity.
Defined.

Lemma timeout_still_takes_effect_witness :
  status (fst (Demo.serve 200000 Demo.opens_fine
                 (Create "users" [("first", JStr "Ana")]) Demo.boot)) = 408
  /\ Sim.table_rows "users"
       (store (snd (Demo.serve 200000 Demo.opens_fine
                      (Create "users" [("first", JStr "Ana")]) Demo.boot)))
     = Some (map Demo.user (seq 1 25) ++ [[("id", JNum 26); ("first", JStr "Ana")]])%list.
Proof.
  destruct (timeout_still_takes_effect Sim.Store Demo.config Demo.opens_fine
              (Sim.db_all 200000) true Demo.stack_of "users" [("first", JStr "Ana")]
              Demo.boot (Demo.connected Demo.users25) Demo.live
              {| after := 200000; reply := Rows [] |}
              [("users", (map Demo.user (seq 1 25)
                          ++ [[("id", JNum 26); ("first", JStr "Ana")]])%list)])
    as (_ & Hs & Hst).
  - reflexivity.
  - reflexivity.
  - vm_compute. reflexivity.
  - vm_compute. reflexivity.
  - split; [exact Hs|]. unfold Demo.serve. rewrite Hst. reflexivity.
Defined.



Lemma read_table_rows_witness :
  fst (Demo.serve 5 Demo.opens_fine (ReadTable "pets") Demo.boot_pets)
  = {| status := 200;
       body := JObj [("status", JStr "success");
                     ("data", JArr [JObj [("id", JNum 7); ("name", JStr "Rex")];
                                    JObj [("id", JNum 7); ("name", JStr "Tom")];
                                    JObj [("id", JNum 8); ("name", JStr "Ava")]])] |}.
Proof.
  unfold Demo.serve.
  rewrite (read_table_rows Sim.Store Demo.config Demo.opens_fine (Sim.db_all 5)
             true Demo.stack_of "pets" Demo.boot_pets (Demo.connected Demo.pets) Demo.live
             {| after := 5;
                reply := Rows [[("id", JNum 7); ("name", JStr "Rex")];
                               [("id", JNum 7); ("name", JStr "Tom")];
                               [("id", JNum 8); ("name", JStr "Ava")]] |}
             Demo.pets
             [[("id", JNum 7); ("name", JStr "Rex")];
              [("id", JNum 7); ("name", JStr "Tom")];
              [("id", JNum 8); ("name", JStr "Ava")]]).
  - reflexivity.
  - reflexivity.
  - reflexivity.
  - vm_compute. reflexivity.
  - vm_compute. reflexivity.
  - reflexivity.
  - reflexivity.
Defined.

